(** * geminiService: the client of the generative-language service

    A shallow embedding of [src/geminiService.ts]: the credential lookup
    [getApiKey], the three exported operations [generateStudyNotes],
    [analyzePharmacyImage] and [createPharmacyChatSession], the response
    schema declared in the notes request, and the parts of the JavaScript
    platform the module calls ([JSON.parse], [console], [process.env], the
    SDK client). *)

From Stdlib Require Import List NArith ZArith Bool String Ascii Lia.
From Stdlib Require DecimalN DecimalFacts.
Import ListNotations.

Set Implicit Arguments.

(** ** JavaScript strings

    A JavaScript string is a sequence of UTF-16 code units.  Literals of the
    source are ASCII and are written with [lit]. *)

Definition JsString := list N.

Definition lit (s : string) : JsString :=
  map N_of_ascii (list_ascii_of_string s).

(** Texts that hold double quotes are written with ['] in their place. *)
Definition quoted (s : string) : JsString :=
  map (fun c => if N.eqb c 39 then 34%N else c) (lit s).

Definition JsString_eqb (a b : JsString) : bool :=
  if list_eq_dec N.eq_dec a b then true else false.

(** [!s] is false exactly for the non-empty strings; [undefined] (an absent
    string) is falsy as well. *)
Definition truthy (s : option JsString) : bool :=
  match s with
  | Some (_ :: _) => true
  | _ => false
  end.

(** [s || d] on an optional string. *)
Definition or_else (s : option JsString) (d : JsString) : JsString :=
  match s with
  | Some (c :: r) => c :: r
  | _ => d
  end.

Fixpoint starts_with (pre s : JsString) : bool :=
  match pre, s with
  | [], _ => true
  | _ :: _, [] => false
  | a :: pre', b :: s' => N.eqb a b && starts_with pre' s'
  end.

(** [includes s sub]: [sub] occurs in [s] ([String.prototype.includes]). *)
Fixpoint includes (s sub : JsString) : bool :=
  starts_with sub s ||
  match s with
  | [] => false
  | _ :: s' => includes s' sub
  end.

(** ** JSON values, as [JSON.parse] builds them

    A number is kept as the exact decimal its literal denotes,
    [(-1)^negative * mantissa * 10^exp10]; the rounding to a double that the
    engine applies afterwards is not modelled.  An object keeps its members in
    the order of the text; reading a property takes the last member with that
    key, since a repeated key overwrites the earlier value. *)

Unset Elimination Schemes.
Inductive JsValue : Type :=
| JNull
| JBool (b : bool)
| JNumber (negative : bool) (mantissa : N) (exp10 : Z)
| JString (s : JsString)
| JArray (elems : list JsValue)
| JObject (members : list (JsString * JsValue)).
Set Elimination Schemes.

Fixpoint get_member (k : JsString) (ms : list (JsString * JsValue))
  : option JsValue :=
  match ms with
  | [] => None
  | (k', v) :: ms' =>
      match get_member k ms' with
      | Some w => Some w
      | None => if JsString_eqb k k' then Some v else None
      end
  end.

(** [v[k]] for a parsed value; [None] is [undefined]. *)
Definition get_property (v : JsValue) (k : JsString) : option JsValue :=
  match v with
  | JObject ms => get_member k ms
  | _ => None
  end.

Definition has_property (v : JsValue) (k : JsString) : bool :=
  match get_property v k with
  | Some _ => true
  | None => false
  end.

(** ** The JSON grammar (ECMA-404), as [JSON.parse] accepts it *)

Module Json.

Local Open Scope N_scope.

Inductive Token : Type :=
| TLBrace | TRBrace | TLBracket | TRBracket | TColon | TComma
| TString (s : JsString)
| TNumber (negative : bool) (mantissa : N) (exp10 : Z)
| TTrue | TFalse | TNull.

(** *** Characters *)

Definition is_ws (c : N) : bool :=
  N.eqb c 9 || N.eqb c 10 || N.eqb c 13 || N.eqb c 32.

Definition is_digit (c : N) : bool := N.leb 48 c && N.leb c 57.

Definition is_lower (c : N) : bool := N.leb 97 c && N.leb c 122.

(** Characters a number literal is made of: digits, [+], [-], [.], [e], [E]. *)
Definition is_num_char (c : N) : bool :=
  is_digit c || N.eqb c 43 || N.eqb c 45 || N.eqb c 46
  || N.eqb c 101 || N.eqb c 69.

Definition hex_value (c : N) : option N :=
  if is_digit c then Some (c - 48)
  else if N.leb 97 c && N.leb c 102 then Some (c - 87)
  else if N.leb 65 c && N.leb c 70 then Some (c - 55)
  else None.

(** *** Number literals: [-? int frac? exp?] *)

Fixpoint span_digits (s : list N) : list N * list N :=
  match s with
  | c :: s' =>
      if is_digit c
      then let (ds, r) := span_digits s' in (c :: ds, r)
      else ([], s)
  | [] => ([], [])
  end.

Definition digits_value (ds : list N) : N :=
  fold_left (fun acc c => 10 * acc + (c - 48))%N ds 0%N.

Definition int_part_ok (ds : list N) : bool :=
  match ds with
  | [] => false
  | [_] => true
  | c :: _ => negb (N.eqb c 48)
  end.

Definition number_of (s : list N) : option Token :=
  let (neg, s1) :=
    match s with
    | 45%N :: r => (true, r)
    | _ => (false, s)
    end in
  let (ip, s2) := span_digits s1 in
  if negb (int_part_ok ip) then None else
  let frac :=
    match s2 with
    | 46%N :: r =>
        let (fp, s3) := span_digits r in
        match fp with [] => None | _ => Some (fp, s3) end
    | _ => Some ([], s2)
    end in
  match frac with
  | None => None
  | Some (fp, s3) =>
      let mant := digits_value (ip ++ fp) in
      let shift := Z.of_nat (List.length fp) in
      match s3 with
      | [] => Some (TNumber neg mant (- shift))
      | e :: r =>
          if N.eqb e 101 || N.eqb e 69 then
            let (eneg, r1) :=
              match r with
              | 45%N :: r' => (true, r')
              | 43%N :: r' => (false, r')
              | _ => (false, r)
              end in
            let (ep, r2) := span_digits r1 in
            match ep, r2 with
            | _ :: _, [] =>
                let ev := Z.of_N (digits_value ep) in
                Some (TNumber neg mant
                        ((if eneg then - ev else ev) - shift))
            | _, _ => None
            end
          else None
      end
  end.

Definition word_of (s : list N) : option Token :=
  if JsString_eqb s (lit "true") then Some TTrue
  else if JsString_eqb s (lit "false") then Some TFalse
  else if JsString_eqb s (lit "null") then Some TNull
  else None.

(** *** The lexer, one code unit at a time *)

Inductive LexMode : Type :=
| Scan                                   (* between tokens *)
| InStr (acc : list N)                   (* in a string, [acc] reversed *)
| InEsc (acc : list N)                   (* after a backslash *)
| InHex (acc : list N) (more : nat) (v : N)  (* in the digits of \uXXXX *)
| InNum (acc : list N)                   (* in a number, [acc] reversed *)
| InWord (acc : list N).                 (* in true, false or null *)

(** A code unit met between tokens; the tokens it completes come first. *)
Definition scan1 (c : N) : option (LexMode * list Token) :=
  if is_ws c then Some (Scan, [])
  else if N.eqb c 123 then Some (Scan, [TLBrace])
  else if N.eqb c 125 then Some (Scan, [TRBrace])
  else if N.eqb c 91 then Some (Scan, [TLBracket])
  else if N.eqb c 93 then Some (Scan, [TRBracket])
  else if N.eqb c 58 then Some (Scan, [TColon])
  else if N.eqb c 44 then Some (Scan, [TComma])
  else if N.eqb c 34 then Some (InStr [], [])
  else if N.eqb c 45 || is_digit c then Some (InNum [c], [])
  else if is_lower c then Some (InWord [c], [])
  else None.

Definition after_token (t : option Token) (c : N)
  : option (LexMode * list Token) :=
  match t with
  | None => None
  | Some tok =>
      match scan1 c with
      | None => None
      | Some (m, ts) => Some (m, tok :: ts)
      end
  end.

Definition step (m : LexMode) (c : N) : option (LexMode * list Token) :=
  match m with
  | Scan => scan1 c
  | InStr acc =>
      if N.eqb c 34 then Some (Scan, [TString (rev acc)])
      else if N.eqb c 92 then Some (InEsc acc, [])
      else if N.ltb c 32 then None
      else Some (InStr (c :: acc), [])
  | InEsc acc =>
      if N.eqb c 34 then Some (InStr (34%N :: acc), [])
      else if N.eqb c 92 then Some (InStr (92%N :: acc), [])
      else if N.eqb c 47 then Some (InStr (47%N :: acc), [])
      else if N.eqb c 98 then Some (InStr (8%N :: acc), [])
      else if N.eqb c 102 then Some (InStr (12%N :: acc), [])
      else if N.eqb c 110 then Some (InStr (10%N :: acc), [])
      else if N.eqb c 114 then Some (InStr (13%N :: acc), [])
      else if N.eqb c 116 then Some (InStr (9%N :: acc), [])
      else if N.eqb c 117 then Some (InHex acc 3%nat 0, [])
      else None
  | InHex acc more v =>
      match hex_value c with
      | None => None
      | Some d =>
          let v' := (16 * v + d)%N in
          match more with
          | O => Some (InStr (v' :: acc), [])
          | S more' => Some (InHex acc more' v', [])
          end
      end
  | InNum acc =>
      if is_num_char c then Some (InNum (c :: acc), [])
      else after_token (number_of (rev acc)) c
  | InWord acc =>
      if is_lower c then Some (InWord (c :: acc), [])
      else after_token (word_of (rev acc)) c
  end.

(** At the end of the text: a number or a word ends there, an open string
    does not. *)
Definition finish (m : LexMode) : option (list Token) :=
  match m with
  | Scan => Some []
  | InNum acc =>
      match number_of (rev acc) with Some t => Some [t] | None => None end
  | InWord acc =>
      match word_of (rev acc) with Some t => Some [t] | None => None end
  | _ => None
  end.

Fixpoint lex (m : LexMode) (s : list N) : option (list Token) :=
  match s with
  | [] => finish m
  | c :: s' =>
      match step m c with
      | None => None
      | Some (m', ts) =>
          match lex m' s' with
          | None => None
          | Some rest => Some (ts ++ rest)
          end
      end
  end.

(** *** The parser, one token at a time, with the open containers on a stack *)

Inductive Frame : Type :=
| InArr (done : list JsValue)                       (* reversed *)
| InObj (done : list (JsString * JsValue)) (key : JsString).

Inductive State : Type :=
| SValue (stack : list Frame)       (* a value must follow *)
| SArrStart (stack : list Frame)    (* after [[]: a value or []] *)
| SObjStart (stack : list Frame)    (* after [{]: a key or [}] *)
| SObjKey (stack : list Frame) (done : list (JsString * JsValue))
| SObjColon (stack : list Frame) (done : list (JsString * JsValue))
            (key : JsString)
| SDone (stack : list Frame) (v : JsValue).   (* a value is complete *)

Definition begin_value (stack : list Frame) (t : Token) : option State :=
  match t with
  | TString s => Some (SDone stack (JString s))
  | TNumber n m e => Some (SDone stack (JNumber n m e))
  | TTrue => Some (SDone stack (JBool true))
  | TFalse => Some (SDone stack (JBool false))
  | TNull => Some (SDone stack JNull)
  | TLBracket => Some (SArrStart stack)
  | TLBrace => Some (SObjStart stack)
  | _ => None
  end.

Definition advance (st : State) (t : Token) : option State :=
  match st with
  | SValue stack => begin_value stack t
  | SArrStart stack =>
      match t with
      | TRBracket => Some (SDone stack (JArray []))
      | _ => begin_value (InArr [] :: stack) t
      end
  | SObjStart stack =>
      match t with
      | TRBrace => Some (SDone stack (JObject []))
      | TString k => Some (SObjColon stack [] k)
      | _ => None
      end
  | SObjKey stack done =>
      match t with
      | TString k => Some (SObjColon stack done k)
      | _ => None
      end
  | SObjColon stack done k =>
      match t with
      | TColon => Some (SValue (InObj done k :: stack))
      | _ => None
      end
  | SDone (InArr done :: stack) v =>
      match t with
      | TComma => Some (SValue (InArr (v :: done) :: stack))
      | TRBracket => Some (SDone stack (JArray (rev (v :: done))))
      | _ => None
      end
  | SDone (InObj done k :: stack) v =>
      match t with
      | TComma => Some (SObjKey stack ((k, v) :: done))
      | TRBrace => Some (SDone stack (JObject (rev ((k, v) :: done))))
      | _ => None
      end
  | SDone [] _ => None
  end.

Fixpoint run (st : State) (ts : list Token) : option JsValue :=
  match ts with
  | [] =>
      match st with
      | SDone [] v => Some v
      | _ => None
      end
  | t :: ts' =>
      match advance st t with
      | None => None
      | Some st' => run st' ts'
      end
  end.

(** The value a text denotes; [None] when the text is not JSON. *)
Definition parse (text : JsString) : option JsValue :=
  match lex Scan text with
  | None => None
  | Some ts => run (SValue []) ts
  end.

End Json.

(** ** Errors

    What the module catches and throws: an error object with a name and a
    message.  A caught object without a [message] property has [None]. *)

Record JsError : Type := mkError {
  name : JsString;
  message : option JsString
}.

(** [new Error(m)] *)
Definition new_Error (m : JsString) : JsError :=
  mkError (lit "Error") (Some m).

(** The error [JSON.parse] throws; its message is the engine's. *)
Definition new_SyntaxError (m : JsString) : JsError :=
  mkError (lit "SyntaxError") (Some m).

(** ** The SDK, [@google/genai] *)

Module GenAI.

(** The [Type] enumeration. *)
Inductive SchemaType : Type := STRING | ARRAY | OBJECT.

(** A schema object.  An absent [properties] or [required] is the empty list,
    an absent [items] is [None]. *)
Unset Elimination Schemes.
Inductive Schema : Type := mkSchema {
  type : SchemaType;
  properties : list (JsString * Schema);
  items : option Schema;
  required : list JsString
}.
Set Elimination Schemes.

Inductive Part : Type :=
| TextPart (text : JsString)
| InlineData (data : JsString) (mimeType : JsString).

Record Content : Type := mkContent { parts : list Part }.

(** [contents] is a list of contents or a single one. *)
Inductive Contents : Type :=
| ContentList (cs : list Content)
| OneContent (c : Content).

Record GenerateContentConfig : Type := mkConfig {
  systemInstruction : JsString;
  responseMimeType : option JsString;
  responseSchema : option Schema
}.

Record GenerateContentParameters : Type := mkParameters {
  model : JsString;
  contents : Contents;
  config : GenerateContentConfig
}.

(** [new GoogleGenAI({ apiKey })] *)
Record GoogleGenAI : Type := mkGoogleGenAI { apiKey : JsString }.

(** The reply; [response.text] is a string or [undefined]. *)
Record GenerateContentResponse : Type := mkResponse {
  text : option JsString
}.

(** What [ai.chats.create] builds: a chat bound to the client and the
    parameters, with no turn exchanged yet.  The SDK builds it locally; the
    service is contacted when a message is sent through it. *)
Record Chat : Type := mkChat {
  chat_client : GoogleGenAI;
  chat_model : JsString;
  chat_config : GenerateContentConfig;
  chat_history : list Content
}.

Definition chats_create (ai : GoogleGenAI) (m : JsString)
    (c : GenerateContentConfig) : Chat :=
  mkChat ai m c [].

End GenAI.

Import GenAI.

(** ** The platform and the effects of a call *)

Inductive LogArg : Type :=
| LogString (s : JsString)
| LogError (e : JsError).

Inductive Event : Type :=
| ConsoleWarn (args : list LogArg)
| ConsoleError (args : list LogArg)
| Request (ai : GoogleGenAI) (params : GenerateContentParameters)
| JsonParse (text : JsString).

(** How [ai.models.generateContent] settles. *)
Inductive ServiceOutcome : Type :=
| Resolved (response : GenerateContentResponse)
| Rejected (error : JsError).

(** What a call finds around it: the environment variable, the service
    behind the SDK, and the message the engine puts on the [SyntaxError] of a
    text that is not JSON. *)
Record Platform : Type := mkPlatform {
  API_KEY : option JsString;
  models_generateContent :
    GoogleGenAI -> GenerateContentParameters -> ServiceOutcome;
  syntax_error_message : JsString -> JsString
}.

Inductive Outcome (A : Type) : Type :=
| Returned (a : A)
| Thrown (e : JsError).

Arguments Returned {A} a.
Arguments Thrown {A} e.

Record Run (A : Type) : Type := mkRun {
  outcome : Outcome A;
  events : list Event
}.

(** A computation reads the platform, emits events in order, and returns or
    throws.  For an [async] function the outcome is how its promise
    settles. *)
Definition M (A : Type) : Type := Platform -> Run A.

Definition ret {A} (a : A) : M A :=
  fun _ => mkRun (Returned a) [].

Definition throw {A} (e : JsError) : M A :=
  fun _ => mkRun (Thrown e) [].

Definition bind {A B} (m : M A) (f : A -> M B) : M B :=
  fun w =>
    let r := m w in
    match outcome r with
    | Returned a =>
        let r' := f a w in
        mkRun (outcome r') (events r ++ events r')
    | Thrown e => mkRun (Thrown e) (events r)
    end.

(** [try { body } catch (error) { handler }] *)
Definition try_catch {A} (body : M A) (handler : JsError -> M A) : M A :=
  fun w =>
    let r := body w in
    match outcome r with
    | Returned a => r
    | Thrown e =>
        let r' := handler e w in
        mkRun (outcome r') (events r ++ events r')
    end.

Definition emit (e : Event) : M unit :=
  fun _ => mkRun (Returned tt) [e].

Definition ask : M Platform :=
  fun w => mkRun (Returned w) [].

Declare Scope js_scope.
Delimit Scope js_scope with js.
Notation "x <- m ;; k" := (bind m (fun x => k))
  (at level 61, m at next level, right associativity) : js_scope.
Notation "m ;; k" := (bind m (fun _ => k))
  (at level 61, right associativity) : js_scope.
Open Scope js_scope.

Definition console_warn (args : list LogArg) : M unit :=
  emit (ConsoleWarn args).

Definition console_error (args : list LogArg) : M unit :=
  emit (ConsoleError args).

(** [process.env.API_KEY] *)
Definition process_env_API_KEY : M (option JsString) :=
  w <- ask ;; ret (API_KEY w).

(** [await ai.models.generateContent(params)] *)
Definition generateContent (ai : GoogleGenAI)
    (params : GenerateContentParameters) : M GenerateContentResponse :=
  emit (Request ai params) ;;
  w <- ask ;;
  match models_generateContent w ai params with
  | Resolved r => ret r
  | Rejected e => throw e
  end.

(** [JSON.parse(text)] *)
Definition JSON_parse (text : JsString) : M JsValue :=
  emit (JsonParse text) ;;
  w <- ask ;;
  match Json.parse text with
  | Some v => ret v
  | None => throw (new_SyntaxError (syntax_error_message w text))
  end.

(** Lines of a template literal, joined by line feeds. *)
Fixpoint template (lines : list JsString) : JsString :=
  match lines with
  | [] => []
  | [l] => l
  | l :: ls => l ++ 10%N :: template ls
  end.

(** A boolean inside a template literal. *)
Definition show_bool (b : bool) : JsString :=
  if b then lit "true" else lit "false".

(** ** [./types] *)

Module Types.

(** Modelled from the spec: the interface [UserPreferences] of [./types],
    which is not among the sources.  Subject, semester, topic and level of
    detail are held as the strings the prompt shows; the target university is
    optional; three boolean flags. *)
Record UserPreferences : Type := mkUserPreferences {
  subject : JsString;
  semester : JsString;
  topic : JsString;
  length : JsString;
  university : option JsString;
  includeDiagrams : bool;
  includeMnemonics : bool;
  includeClinicalCorrelation : bool
}.

(** Modelled from the spec: the required fields of the interface
    [StudyNotes] of [./types], which is not among the sources. *)
Definition StudyNotes_required : list JsString :=
  [lit "introduction"; lit "detailedExplanation"; lit "examples";
   lit "examPoints"; lit "shortAnswerQuestions"; lit "longAnswerQuestions";
   lit "pyqs"; lit "vivaQuestions"].

(** Modelled from the spec: the optional fields of [StudyNotes]. *)
Definition StudyNotes_optional : list JsString :=
  [lit "definition"; lit "classification"; lit "diagramDescription";
   lit "clinicalCorrelation"].

(** Every required field of [StudyNotes] is present in the value. *)
Definition required_fields_present (v : JsValue) : bool :=
  forallb (has_property v) StudyNotes_required.

End Types.

(** ** [geminiService.ts] *)

Definition SYSTEM_PROMPT : JsString :=
  template
   [[];
    lit "  You are an expert B.Pharm professor and academic mentor specializing in Indian PCI (Pharmacy Council of India) syllabus.";
    lit "  Your task is to generate highly structured, exam-oriented study notes for first-year pharmacy students.";
    lit "  ";
    lit "  CRITICAL RULES:";
    lit "  1. Language: Simple, academic, and professional.";
    lit "  2. Context: Suitable for 2, 5, and 10 marks university questions.";
    lit "  3. Content: Must be technically accurate and include pharmacy-specific examples.";
    lit "  4. Mnemonics: If requested, provide catchy and easy-to-remember mnemonics for classifications or lists.";
    lit "  5. Diagrams: Provide clear, text-based descriptions of labeled diagrams that a student can draw.";
    lit "  ";
    lit "  You must return the response as a valid JSON object matching the provided schema exactly.";
    []].

Definition API_KEY_warning : JsString :=
  lit "API Key is missing. Ensure process.env.API_KEY is configured.".

Definition getApiKey : M JsString :=
  key <- process_env_API_KEY ;;
  (if negb (truthy key)
   then console_warn [LogString API_KEY_warning]
   else ret tt) ;;
  ret (or_else key []).

Definition MODEL : JsString := lit "gemini-3-pro-preview".

Definition userPrompt (prefs : Types.UserPreferences) : JsString :=
  template
   [[];
    lit "    Subject: " ++ Types.subject prefs;
    lit "    Semester: " ++ Types.semester prefs;
    lit "    Topic: " ++ Types.topic prefs;
    lit "    Level of Detail: " ++ Types.length prefs;
    lit "    Target University: "
      ++ or_else (Types.university prefs) (lit "Any PCI-affiliated University");
    lit "    ";
    lit "    Specific Requirements:";
    lit "    - Include Diagram Description: "
      ++ show_bool (Types.includeDiagrams prefs);
    lit "    - Include Mnemonics: " ++ show_bool (Types.includeMnemonics prefs);
    lit "    - Include Clinical/Practical Correlation: "
      ++ show_bool (Types.includeClinicalCorrelation prefs);
    lit "  "].

Definition string_schema : Schema := mkSchema STRING [] None [].

Definition array_schema (item : Schema) : Schema :=
  mkSchema ARRAY [] (Some item) [].

Definition classification_item : Schema :=
  mkSchema OBJECT
    [(lit "type", string_schema);
     (lit "explanation", string_schema)]
    None
    [lit "type"; lit "explanation"].

Definition examPoints_item : Schema :=
  mkSchema OBJECT
    [(lit "point", string_schema);
     (lit "mnemonic", string_schema)]
    None
    [lit "point"].

Definition responseSchema_notes : Schema :=
  mkSchema OBJECT
    [(lit "introduction", string_schema);
     (lit "definition", string_schema);
     (lit "classification", array_schema classification_item);
     (lit "detailedExplanation", array_schema string_schema);
     (lit "examples", array_schema string_schema);
     (lit "diagramDescription", string_schema);
     (lit "examPoints", array_schema examPoints_item);
     (lit "shortAnswerQuestions", array_schema string_schema);
     (lit "longAnswerQuestions", array_schema string_schema);
     (lit "pyqs", array_schema string_schema);
     (lit "vivaQuestions", array_schema string_schema);
     (lit "clinicalCorrelation", string_schema)]
    None
    [lit "introduction"; lit "detailedExplanation"; lit "examples";
     lit "examPoints"; lit "shortAnswerQuestions"; lit "longAnswerQuestions";
     lit "pyqs"; lit "vivaQuestions"].

(** The argument of [generateContent] in [generateStudyNotes]. *)
Definition notes_request (prompt : JsString) : GenerateContentParameters :=
  mkParameters MODEL
    (ContentList [mkContent [TextPart prompt]])
    (mkConfig SYSTEM_PROMPT
       (Some (lit "application/json"))
       (Some responseSchema_notes)).

Definition empty_response_message : JsString :=
  lit "The AI returned an empty response. Please try again.".

Definition notes_fallback_message : JsString :=
  lit "Could not generate academic notes.".

(** The value returned is what [JSON.parse] built: [as StudyNotes] is a
    type assertion and leaves no check in the running code. *)
Definition generateStudyNotes (prefs : Types.UserPreferences) : M JsValue :=
  key <- getApiKey ;;
  let ai := mkGoogleGenAI key in
  try_catch
    (response <- generateContent ai (notes_request (userPrompt prefs)) ;;
     match text response with
     | Some (c :: r) => JSON_parse (c :: r)
     | _ => throw (new_Error empty_response_message)
     end)
    (fun error =>
       console_error [LogString (lit "Gemini API Error:"); LogError error] ;;
       throw (new_Error (or_else (message error) notes_fallback_message))).

Definition image_prompt : JsString :=
  template
   [[];
    lit "    Analyze this pharmacy academic image. IDENTIFY correctly and PROVIDE academic context.";
    lit "    ";
    lit "    Structure your response as follows:";
    lit "    # Identification";
    lit "    [Clear name of what is shown]";
    [];
    lit "    # Academic Context";
    lit "    [Which B.Pharm subject/semester does this belong to?]";
    [];
    lit "    # Exam Focus";
    lit "    [Important points for a 5-mark answer]";
    [];
    lit "    # Practical & Safety";
    lit "    [Laboratory precautions or clinical relevance]";
    [];
    lit "    # Correction Note (if applicable)";
    lit "    [Point out any spelling/factual errors in the image if it's a student's note]";
    lit "    ";
    lit "    Use markdown format with # for headings (they will be cleaned by UI) and * bullet points. Be professional and highly detailed.";
    lit "  "].

(** The argument of [generateContent] in [analyzePharmacyImage]. *)
Definition image_request (base64Image mimeType : JsString)
  : GenerateContentParameters :=
  mkParameters MODEL
    (OneContent
       (mkContent [InlineData base64Image mimeType; TextPart image_prompt]))
    (mkConfig
       (lit "You are an expert Pharmacy Professor. Your analysis is used by B.Pharm students for exam preparation. Be technically rigorous and structured.")
       None None).

Definition image_unavailable : JsString :=
  lit "Analysis unavailable for this image.".

Definition image_failure_message : JsString :=
  lit "Failed to process image lab analysis.".

Definition analyzePharmacyImage (base64Image mimeType : JsString)
  : M JsString :=
  key <- getApiKey ;;
  let ai := mkGoogleGenAI key in
  try_catch
    (response <- generateContent ai (image_request base64Image mimeType) ;;
     ret (or_else (text response) image_unavailable))
    (fun error =>
       console_error [LogString (lit "Image Analysis Error:"); LogError error] ;;
       throw (new_Error image_failure_message)).

Definition chat_instruction : JsString :=
  lit "You are 'PharmAssistant', a virtual mentor for B.Pharm students. Provide helpful, exam-focused answers. Always advise consulting a professional for health issues.".

Definition createPharmacyChatSession : M Chat :=
  key <- getApiKey ;;
  let ai := mkGoogleGenAI key in
  ret (chats_create ai MODEL (mkConfig chat_instruction None None)).

(** ** Vocabulary of the statements *)

(** What [getApiKey] contributes to a call on platform [w]: the key the
    client is built with, and the warning when the variable is unset or
    empty. *)
Definition resolved_key (w : Platform) : JsString := or_else (API_KEY w) [].

Definition key_events (w : Platform) : list Event :=
  if truthy (API_KEY w) then []
  else [ConsoleWarn [LogString API_KEY_warning]].

(** How the service settles the request of [generateStudyNotes prefs]. *)
Definition notes_reply (w : Platform) (prefs : Types.UserPreferences)
  : ServiceOutcome :=
  models_generateContent w (mkGoogleGenAI (resolved_key w))
    (notes_request (userPrompt prefs)).

(** How the service settles the request of [analyzePharmacyImage]. *)
Definition image_reply (w : Platform) (base64Image mimeType : JsString)
  : ServiceOutcome :=
  models_generateContent w (mkGoogleGenAI (resolved_key w))
    (image_request base64Image mimeType).

(** The failure taxonomy of the specification, read off the cause: the
    request was rejected, the reply had no text, or the text was not JSON. *)
Inductive Failure : Type := EmptyResponse | ParseError | ServiceError.

Definition notes_failure (w : Platform) (prefs : Types.UserPreferences)
  : option Failure :=
  match notes_reply w prefs with
  | Rejected _ => Some ServiceError
  | Resolved r =>
      match text r with
      | Some (c :: t) =>
          match Json.parse (c :: t) with
          | Some _ => None
          | None => Some ParseError
          end
      | _ => Some EmptyResponse
      end
  end.

Definition is_request (e : Event) : bool :=
  match e with Request _ _ => true | _ => false end.

Definition is_parse (e : Event) : bool :=
  match e with JsonParse _ => true | _ => false end.

Definition is_warning (e : Event) : bool :=
  match e with ConsoleWarn _ => true | _ => false end.

Definition requests (es : list Event) : list Event := filter is_request es.

Definition warnings (es : list Event) : list Event := filter is_warning es.

(** [console.error(label, e)] *)
Definition logged_error (label : JsString) (e : JsError) : Event :=
  ConsoleError [LogString label; LogError e].

(** The strings a console argument shows: the string itself, or the name and
    the message of an error. *)
Definition shown (a : LogArg) : list JsString :=
  match a with
  | LogString s => [s]
  | LogError e => [name e; or_else (message e) []]
  end.

(** The strings the console received, in order. *)
Definition console_output (es : list Event) : list JsString :=
  flat_map (fun e =>
              match e with
              | ConsoleWarn args | ConsoleError args => flat_map shown args
              | _ => []
              end) es.

(** [s] occurs somewhere in what the console received. *)
Definition logged (es : list Event) (s : JsString) : bool :=
  existsb (fun line => includes line s) (console_output es).

(** *** Sample platforms *)

(** The message of V8 up to version 10 for a text whose first character is
    the offending one, as in [Unexpected token h in JSON at position 0]. *)
Definition position_message (text : JsString) : JsString :=
  lit "Unexpected token " ++ firstn 1 text ++ lit " in JSON at position 0".

(** A platform whose service answers every request with [reply]. *)
Definition replying (key reply : option JsString) : Platform :=
  mkPlatform key (fun _ _ => Resolved (mkResponse reply)) position_message.

(** A platform whose service rejects every request with [e]. *)
Definition failing (key : option JsString) (e : JsError) : Platform :=
  mkPlatform key (fun _ _ => Rejected e) position_message.

Definition sample_prefs : Types.UserPreferences :=
  Types.mkUserPreferences (lit "Pharmaceutics") (lit "1") (lit "Dosage forms")
    (lit "Detailed") None true true false.

(** The three entry points, as a caller invokes them. *)
Inductive Call : Type :=
| CallNotes (prefs : Types.UserPreferences)
| CallImage (base64Image mimeType : JsString)
| CallChat.

Definition call_events (w : Platform) (c : Call) : list Event :=
  match c with
  | CallNotes prefs => events (generateStudyNotes prefs w)
  | CallImage img mime => events (analyzePharmacyImage img mime w)
  | CallChat => events (createPharmacyChatSession w)
  end.

(** The key of the client a call works with. *)
Definition call_keys (w : Platform) (c : Call) : list JsString :=
  match c with
  | CallChat =>
      match outcome (createPharmacyChatSession w) with
      | Returned chat => [apiKey (chat_client chat)]
      | Thrown _ => []
      end
  | _ =>
      flat_map (fun e => match e with
                         | Request ai _ => [apiKey ai]
                         | _ => []
                         end) (call_events w c)
  end.

(** Schema navigation: a property of an object schema, the item schema of
    an array property. *)
Fixpoint assoc (k : JsString) (ps : list (JsString * Schema))
  : option Schema :=
  match ps with
  | [] => None
  | (k', s) :: ps' => if JsString_eqb k k' then Some s else assoc k ps'
  end.

Definition property (s : Schema) (k : JsString) : option Schema :=
  assoc k (properties s).

Definition item_of (s : Schema) (k : JsString) : option Schema :=
  match property s k with
  | Some a => items a
  | None => None
  end.

(** *** Further vocabulary *)

Definition is_console_error (e : Event) : bool :=
  match e with ConsoleError _ => true | _ => false end.

(** The [console.error] entries of a run. *)
Definition errors (es : list Event) : list Event :=
  filter is_console_error es.

(** The text parts and the inline data of a request, in order. *)
Definition request_parts (p : GenerateContentParameters) : list Part :=
  match contents p with
  | ContentList cs => flat_map parts cs
  | OneContent c => parts c
  end.

(** What a response schema asks of a value: a [STRING] is a string; an
    [ARRAY] is an array whose elements satisfy [items]; an [OBJECT] is an
    object that has every [required] property and whose declared properties,
    where present, satisfy their schemas. *)
Fixpoint conforms (s : Schema) (v : JsValue) {struct s} : bool :=
  match s with
  | mkSchema STRING _ _ _ =>
      match v with
      | JString _ => true
      | _ => false
      end
  | mkSchema ARRAY _ it _ =>
      match v with
      | JArray xs =>
          match it with
          | Some i => forallb (conforms i) xs
          | None => true
          end
      | _ => false
      end
  | mkSchema OBJECT props _ req =>
      match v with
      | JObject ms =>
          forallb (has_property v) req
          && forallb (fun kp =>
                        match get_member (fst kp) ms with
                        | Some x => conforms (snd kp) x
                        | None => true
                        end) props
      | _ => false
      end
  end.

Definition is_string (v : JsValue) : bool :=
  match v with JString _ => true | _ => false end.

(** A reply that satisfies the schema of the notes request. *)
Definition sample_notes_text : JsString :=
  quoted "{'introduction':'Tablets are solid dosage forms.','detailedExplanation':['Compressed','Coated'],'examples':['Aspirin'],'examPoints':[{'point':'Types','mnemonic':'CCE'},{'point':'Excipients'}],'shortAnswerQuestions':[],'longAnswerQuestions':[],'pyqs':[],'vivaQuestions':['Define tablet.']}".

(** *** A JSON text for every value

    A printer for JSON values, the inverse of the parser: numbers as their
    mantissa and exponent in decimal, strings with the quote, the backslash
    and the control characters escaped, arrays and objects without white
    space. *)

Fixpoint uint_units (d : Decimal.uint) : list N :=
  match d with
  | Decimal.Nil => []
  | Decimal.D0 d' => 48%N :: uint_units d'
  | Decimal.D1 d' => 49%N :: uint_units d'
  | Decimal.D2 d' => 50%N :: uint_units d'
  | Decimal.D3 d' => 51%N :: uint_units d'
  | Decimal.D4 d' => 52%N :: uint_units d'
  | Decimal.D5 d' => 53%N :: uint_units d'
  | Decimal.D6 d' => 54%N :: uint_units d'
  | Decimal.D7 d' => 55%N :: uint_units d'
  | Decimal.D8 d' => 56%N :: uint_units d'
  | Decimal.D9 d' => 57%N :: uint_units d'
  end.

Definition print_N (n : N) : list N := uint_units (N.to_uint n).

Definition print_Z (z : Z) : list N :=
  match z with
  | Zneg p => 45%N :: print_N (Npos p)
  | _ => print_N (Z.to_N z)
  end.

Definition hex_digit (d : N) : N :=
  if N.ltb d 10 then (48 + d)%N else (87 + d)%N.

Definition escape_unit (c : N) : list N :=
  if N.eqb c 34 then [92; 34]%N
  else if N.eqb c 92 then [92; 92]%N
  else if N.ltb c 32
       then [92; 117; 48; 48; hex_digit (c / 16); hex_digit (c mod 16)]%N
       else [c].

Definition print_string (s : JsString) : JsString :=
  34%N :: flat_map escape_unit s ++ [34%N].

(** The pieces of a list, with a separator between two of them. *)
Fixpoint sep_concat {A B : Type} (f : A -> list B) (sep : B) (xs : list A)
  : list B :=
  match xs with
  | [] => []
  | x :: xs' =>
      f x ++ match xs' with
             | [] => []
             | _ :: _ => sep :: sep_concat f sep xs'
             end
  end.

Fixpoint print (v : JsValue) : JsString :=
  match v with
  | JNull => lit "null"
  | JBool true => lit "true"
  | JBool false => lit "false"
  | JNumber neg m e =>
      (if neg then [45%N] else []) ++ print_N m ++ 101%N :: print_Z e
  | JString s => print_string s
  | JArray xs => 91%N :: sep_concat print 44%N xs ++ [93%N]
  | JObject ms =>
      123%N ::
      sep_concat (fun kv => print_string (fst kv) ++ 58%N :: print (snd kv))
        44%N ms
      ++ [125%N]
  end.

(** The tokens of the printed text. *)
Fixpoint tokens (v : JsValue) : list Json.Token :=
  match v with
  | JNull => [Json.TNull]
  | JBool true => [Json.TTrue]
  | JBool false => [Json.TFalse]
  | JNumber neg m e => [Json.TNumber neg m e]
  | JString s => [Json.TString s]
  | JArray xs =>
      Json.TLBracket :: sep_concat tokens Json.TComma xs ++ [Json.TRBracket]
  | JObject ms =>
      Json.TLBrace ::
      sep_concat (fun kv => Json.TString (fst kv) :: Json.TColon
                            :: tokens (snd kv))
        Json.TComma ms
      ++ [Json.TRBrace]
  end.

(** The tokens [ts], then what the lexer finds in the rest. *)
Definition prepend (ts : list Json.Token) (o : option (list Json.Token))
  : option (list Json.Token) :=
  match o with
  | Some r => Some (ts ++ r)
  | None => None
  end.

(** What may follow a printed value: the end of the text, a comma, a
    closing bracket or brace, or white space. *)
Definition delimited (rest : JsString) : bool :=
  match rest with
  | [] => true
  | c :: _ => N.eqb c 44 || N.eqb c 93 || N.eqb c 125 || Json.is_ws c
  end.

(** The rest of a text after a run of digits: it does not go on with one. *)
Definition not_digit_headed (rest : list N) : bool :=
  match rest with
  | [] => true
  | c :: _ => negb (Json.is_digit c)
  end.

(** The parser, where a value is expected, reads the tokens of [v] and
    holds [v] as complete. *)
Definition parses (v : JsValue) : Prop :=
  forall stack ts,
    Json.run (Json.SValue stack) (tokens v ++ ts)
    = Json.run (Json.SDone stack v) ts.

(** *** Values that read the same as text and as objects

    For these the members of the text are the properties of the object
    [JSON.parse] builds, in the same order: no number, every code unit below
    2^16, and in every object the keys distinct and none written in digits
    alone (an engine lists array-index keys first). *)

Definition is_unit16 (c : N) : bool := N.ltb c 65536.

Definition index_like (k : JsString) : bool :=
  match k with
  | [] => false
  | _ :: _ => forallb Json.is_digit k
  end.

Fixpoint distinct_keys (ks : list JsString) : bool :=
  match ks with
  | [] => true
  | k :: ks' => negb (existsb (JsString_eqb k) ks') && distinct_keys ks'
  end.

Fixpoint plain (v : JsValue) : bool :=
  match v with
  | JNull => true
  | JBool _ => true
  | JNumber _ _ _ => false
  | JString s => forallb is_unit16 s
  | JArray xs => forallb plain xs
  | JObject ms =>
      distinct_keys (map fst ms)
      && forallb (fun kv =>
                    negb (index_like (fst kv))
                    && forallb is_unit16 (fst kv)
                    && plain (snd kv)) ms
  end.

(** A value with nested containers and escapes. *)
Definition round_trip_sample : JsValue :=
  JObject
    [(lit "introduction", JString (quoted "A 'tablet' is a solid form."));
     (lit "examPoints",
      JArray [JObject [(lit "point", JString [80; 10; 8364]%N);
                       (lit "mnemonic", JString [67; 92; 69]%N)];
              JObject [(lit "point", JString [])]]);
     (lit "flags", JArray [JBool true; JBool false; JNull])].

(** *** The console calls of the module itself

    The events of a run are the calls the module makes.  What the SDK prints
    on its own while a call runs is not among them. *)
Definition own_console_calls (es : list Event) : list Event :=
  filter (fun e => is_warning e || is_console_error e) es.

(** *** The chat session over any SDK

    [createPharmacyChatSession] calls two things of the SDK, the constructor
    [new GoogleGenAI] and [ai.chats.create], whose code is not part of the
    module.  Here they are taken as they come: each returns a value or
    throws, and emits events of its own (a warning, a request to the
    service).  The client and the chat are of any type, as the function
    returns [any]. *)
Record Sdk (Client Chat : Type) : Type := mkSdk {
  sdk_new : JsString -> M Client;
  sdk_chats_create : Client -> JsString -> GenerateContentConfig -> M Chat
}.

(** The persona of the chat. *)
Definition chat_config : GenerateContentConfig :=
  mkConfig chat_instruction None None.

Definition createPharmacyChatSession_on {Client Chat : Type}
    (sdk : Sdk Client Chat) : M Chat :=
  key <- getApiKey ;;
  ai <- sdk_new sdk key ;;
  sdk_chats_create sdk ai MODEL chat_config.

(** The SDK as the other definitions have it: both calls build their object
    and do nothing else. *)
Definition local_sdk : Sdk GoogleGenAI Chat :=
  mkSdk (fun key => ret (mkGoogleGenAI key))
        (fun ai m c => ret (chats_create ai m c)).


Unset Implicit Arguments.

(** * Properties *)

(** ** The runs of the operations, case by case *)

Lemma getApiKey_run (w : Platform) :
  getApiKey w = mkRun (Returned (resolved_key w)) (key_events w).
Proof.
  unfold getApiKey, resolved_key, key_events, process_env_API_KEY, bind, ask,
    ret, console_warn, emit.
  cbn. destruct (truthy (API_KEY w)); reflexivity.
Qed.

Lemma bind_run {A B} (m : M A) (f : A -> M B) (w : Platform) a es :
  m w = mkRun (Returned a) es ->
  bind m f w = mkRun (outcome (f a w)) (es ++ events (f a w)).
Proof. intros H. unfold bind. rewrite H. reflexivity. Qed.

Lemma generateContent_run (ai : GoogleGenAI) (p : GenerateContentParameters)
    (w : Platform) :
  generateContent ai p w =
  mkRun (match models_generateContent w ai p with
         | Resolved r => Returned r
         | Rejected e => Thrown e
         end)
        [Request ai p].
Proof.
  unfold generateContent, bind, emit, ask, ret, throw. cbn.
  destruct (models_generateContent w ai p); reflexivity.
Qed.

Lemma JSON_parse_run (t : JsString) (w : Platform) :
  JSON_parse t w =
  mkRun (match Json.parse t with
         | Some v => Returned v
         | None => Thrown (new_SyntaxError (syntax_error_message w t))
         end)
        [JsonParse t].
Proof.
  unfold JSON_parse, bind, emit, ask, ret, throw. cbn [outcome events app].
  destruct (Json.parse t); reflexivity.
Qed.

Lemma generateStudyNotes_run (prefs : Types.UserPreferences) (w : Platform) :
  let ai := mkGoogleGenAI (resolved_key w) in
  let req := Request ai (notes_request (userPrompt prefs)) in
  let label := lit "Gemini API Error:" in
  generateStudyNotes prefs w =
  match notes_reply w prefs with
  | Rejected e =>
      mkRun (Thrown (new_Error (or_else (message e) notes_fallback_message)))
            (key_events w ++ [req; logged_error label e])
  | Resolved r =>
      match text r with
      | Some (c :: t) =>
          match Json.parse (c :: t) with
          | Some v =>
              mkRun (Returned v) (key_events w ++ [req; JsonParse (c :: t)])
          | None =>
              let e := new_SyntaxError (syntax_error_message w (c :: t)) in
              mkRun (Thrown (new_Error
                               (or_else (message e) notes_fallback_message)))
                    (key_events w
                     ++ [req; JsonParse (c :: t); logged_error label e])
          end
      | _ =>
          mkRun (Thrown (new_Error empty_response_message))
                (key_events w
                 ++ [req; logged_error label (new_Error empty_response_message)])
      end
  end.
Proof.
  intros ai req label. subst req label.
  unfold generateStudyNotes.
  erewrite bind_run by apply getApiKey_run.
  unfold notes_reply. fold ai.
  generalize (notes_request (userPrompt prefs)) as p.
  generalize (lit "Gemini API Error:") as label.
  intros label p.
  unfold try_catch, bind.
  rewrite generateContent_run. cbn [outcome events].
  destruct (models_generateContent w ai p) as [r | e].
  - destruct (text r) as [[| c t] |]; try reflexivity.
    rewrite JSON_parse_run. cbn [outcome events].
    destruct (Json.parse (c :: t)); reflexivity.
  - reflexivity.
Qed.

Lemma analyzePharmacyImage_run (base64Image mimeType : JsString)
    (w : Platform) :
  let ai := mkGoogleGenAI (resolved_key w) in
  let req := Request ai (image_request base64Image mimeType) in
  analyzePharmacyImage base64Image mimeType w =
  match image_reply w base64Image mimeType with
  | Resolved r =>
      mkRun (Returned (or_else (text r) image_unavailable))
            (key_events w ++ [req])
  | Rejected e =>
      mkRun (Thrown (new_Error image_failure_message))
            (key_events w
             ++ [req; logged_error (lit "Image Analysis Error:") e])
  end.
Proof.
  intros ai req. subst req.
  unfold analyzePharmacyImage.
  erewrite bind_run by apply getApiKey_run.
  unfold image_reply. fold ai.
  generalize (image_request base64Image mimeType) as p.
  generalize (lit "Image Analysis Error:") as label.
  intros label p.
  unfold try_catch, bind.
  rewrite generateContent_run. cbn [outcome events].
  destruct (models_generateContent w ai p) as [r | e]; reflexivity.
Qed.

Lemma createPharmacyChatSession_run (w : Platform) :
  createPharmacyChatSession w =
  mkRun (Returned (mkChat (mkGoogleGenAI (resolved_key w)) MODEL
                     (mkConfig chat_instruction None None) []))
        (key_events w).
Proof.
  unfold createPharmacyChatSession.
  erewrite bind_run by apply getApiKey_run.
  unfold ret, chats_create. cbn [outcome events].
  rewrite app_nil_r. reflexivity.
Qed.

(** *** Events of a run, by kind *)

Lemma requests_key_events (w : Platform) : requests (key_events w) = [].
Proof. unfold key_events. destruct (truthy (API_KEY w)); reflexivity. Qed.

Lemma warnings_key_events (w : Platform) :
  warnings (key_events w) = key_events w.
Proof. unfold key_events. destruct (truthy (API_KEY w)); reflexivity. Qed.

Lemma parses_key_events (w : Platform) : filter is_parse (key_events w) = [].
Proof. unfold key_events. destruct (truthy (API_KEY w)); reflexivity. Qed.

Lemma key_events_absent (w : Platform) :
  API_KEY w = None ->
  key_events w = [ConsoleWarn [LogString API_KEY_warning]].
Proof. intros H. unfold key_events. rewrite H. reflexivity. Qed.

Lemma requests_notes (prefs : Types.UserPreferences) (w : Platform) :
  requests (events (generateStudyNotes prefs w)) =
  [Request (mkGoogleGenAI (resolved_key w)) (notes_request (userPrompt prefs))].
Proof.
  rewrite generateStudyNotes_run.
  destruct (notes_reply w prefs) as [r | e].
  - destruct (text r) as [[| c t] |]; [| destruct (Json.parse (c :: t)) |];
      cbn [events]; unfold requests; rewrite filter_app;
      fold (requests (key_events w)); rewrite requests_key_events;
      reflexivity.
  - cbn [events]. unfold requests. rewrite filter_app.
    fold (requests (key_events w)). rewrite requests_key_events.
    reflexivity.
Qed.

Lemma warnings_notes (prefs : Types.UserPreferences) (w : Platform) :
  warnings (events (generateStudyNotes prefs w)) = key_events w.
Proof.
  rewrite generateStudyNotes_run.
  destruct (notes_reply w prefs) as [r | e].
  - destruct (text r) as [[| c t] |]; [| destruct (Json.parse (c :: t)) |];
      cbn [events]; unfold warnings; rewrite filter_app;
      fold (warnings (key_events w)); rewrite warnings_key_events;
      cbn; apply app_nil_r.
  - cbn [events]. unfold warnings. rewrite filter_app.
    fold (warnings (key_events w)). rewrite warnings_key_events.
    cbn. apply app_nil_r.
Qed.

Lemma requests_image (img mime : JsString) (w : Platform) :
  requests (events (analyzePharmacyImage img mime w)) =
  [Request (mkGoogleGenAI (resolved_key w)) (image_request img mime)].
Proof.
  rewrite analyzePharmacyImage_run.
  destruct (image_reply w img mime); cbn [events]; unfold requests;
    rewrite filter_app; fold (requests (key_events w));
    rewrite requests_key_events; reflexivity.
Qed.

Lemma warnings_image (img mime : JsString) (w : Platform) :
  warnings (events (analyzePharmacyImage img mime w)) = key_events w.
Proof.
  rewrite analyzePharmacyImage_run.
  destruct (image_reply w img mime); cbn [events]; unfold warnings;
    rewrite filter_app; fold (warnings (key_events w));
    rewrite warnings_key_events; cbn; apply app_nil_r.
Qed.

Lemma call_warnings (w : Platform) (c : Call) :
  warnings (call_events w c) = key_events w.
Proof.
  destruct c as [prefs | img mime |]; cbn [call_events].
  - apply warnings_notes.
  - apply warnings_image.
  - rewrite createPharmacyChatSession_run. apply warnings_key_events.
Qed.

Lemma keys_of_requests (es : list Event) :
  flat_map (fun e => match e with
                     | Request ai _ => [apiKey ai]
                     | _ => []
                     end) es
  = flat_map (fun e => match e with
                       | Request ai _ => [apiKey ai]
                       | _ => []
                       end) (requests es).
Proof.
  induction es as [| e es IH]; [reflexivity |].
  destruct e; cbn; rewrite IH; reflexivity.
Qed.

Lemma call_keys_resolved (w : Platform) (c : Call) :
  call_keys w c = [resolved_key w].
Proof.
  destruct c as [prefs | img mime |]; unfold call_keys.
  - rewrite keys_of_requests. cbn [call_events].
    rewrite requests_notes. reflexivity.
  - rewrite keys_of_requests. cbn [call_events].
    rewrite requests_image. reflexivity.
  - rewrite createPharmacyChatSession_run. reflexivity.
Qed.

(** ** The notes request *)

(** C1, as the code has it: for every preferences value and platform,
    [generateStudyNotes] either returns exactly the value [JSON.parse] builds
    from the non-empty reply text, whatever its shape, or throws an [Error]
    in one of the three failure cases (empty reply, text that is not JSON,
    rejected request).  Nothing checks the required fields of the value. *)
Theorem generateStudyNotes_parsed_or_fails
    (prefs : Types.UserPreferences) (w : Platform) :
  (exists r t v,
      notes_reply w prefs = Resolved r /\
      text r = Some t /\ truthy (text r) = true /\
      Json.parse t = Some v /\
      notes_failure w prefs = None /\
      outcome (generateStudyNotes prefs w) = Returned v)
  \/
  (exists f m,
      notes_failure w prefs = Some f /\
      outcome (generateStudyNotes prefs w) = Thrown (new_Error m)).
Proof.
  rewrite generateStudyNotes_run. unfold notes_failure.
  destruct (notes_reply w prefs) as [r | e].
  - destruct (text r) as [[| c t] |] eqn:Ht.
    + right. exists EmptyResponse. eexists. split; reflexivity.
    + destruct (Json.parse (c :: t)) as [v |] eqn:Hp.
      * left. exists r, (c :: t), v. rewrite Ht. repeat split; assumption.
      * right. exists ParseError. eexists. split; reflexivity.
    + right. exists EmptyResponse. eexists. split; reflexivity.
  - right. exists ServiceError. eexists. split; reflexivity.
Qed.

(** C1, as stated, fails: when the service replies with the text of the empty
    object, the call returns the empty object, in which no required field is
    present. *)
Lemma generateStudyNotes_required_counterexample :
  let w := replying None (Some (lit "{}")) in
  outcome (generateStudyNotes sample_prefs w) = Returned (JObject []) /\
  Types.required_fields_present (JObject []) = false /\
  has_property (JObject []) (lit "introduction") = false.
Proof. vm_compute. repeat split. Qed.

(** C2: when the reply has no text ([undefined] or the empty string),
    [generateStudyNotes] throws the empty-response [Error] and never calls
    [JSON.parse]. *)
Theorem empty_reply_fails_unparsed
    (prefs : Types.UserPreferences) (w : Platform)
    (r : GenerateContentResponse) :
  notes_reply w prefs = Resolved r ->
  truthy (text r) = false ->
  outcome (generateStudyNotes prefs w)
  = Thrown (new_Error
              (lit "The AI returned an empty response. Please try again.")) /\
  notes_failure w prefs = Some EmptyResponse /\
  filter is_parse (events (generateStudyNotes prefs w)) = [].
Proof.
  intros Hr Ht.
  rewrite generateStudyNotes_run. unfold notes_failure. rewrite Hr.
  destruct (text r) as [[| c t] |]; try discriminate Ht;
    cbn [outcome events]; rewrite filter_app, parses_key_events;
    repeat split.
Qed.

Lemma empty_reply_fails_unparsed_witness :
  let w := replying (Some (lit "k-123")) (Some []) in
  notes_reply w sample_prefs = Resolved (mkResponse (Some [])) /\
  outcome (generateStudyNotes sample_prefs w)
  = Thrown (new_Error
              (lit "The AI returned an empty response. Please try again.")) /\
  notes_failure w sample_prefs = Some EmptyResponse /\
  filter is_parse (events (generateStudyNotes sample_prefs w)) = [].
Proof.
  split; [reflexivity |].
  apply (empty_reply_fails_unparsed sample_prefs
           (replying (Some (lit "k-123")) (Some []))
           (mkResponse (Some []))); reflexivity.
Defined.

(** C3, as the code has it: when the reply text is non-empty and is not JSON,
    [generateStudyNotes] throws an [Error] carrying the message of the
    parser's [SyntaxError] (the fallback message when that message is empty),
    and what it logs is the label and that [SyntaxError]: the reply text is
    not handed to the console. *)
Theorem non_json_reply_fails_logging_error
    (prefs : Types.UserPreferences) (w : Platform)
    (r : GenerateContentResponse) (t : JsString) :
  notes_reply w prefs = Resolved r ->
  text r = Some t ->
  truthy (text r) = true ->
  Json.parse t = None ->
  let e := new_SyntaxError (syntax_error_message w t) in
  outcome (generateStudyNotes prefs w)
  = Thrown (new_Error
              (or_else (Some (syntax_error_message w t))
                       (lit "Could not generate academic notes."))) /\
  notes_failure w prefs = Some ParseError /\
  events (generateStudyNotes prefs w)
  = key_events w
    ++ [Request (mkGoogleGenAI (resolved_key w))
          (notes_request (userPrompt prefs));
        JsonParse t;
        ConsoleError [LogString (lit "Gemini API Error:"); LogError e]].
Proof.
  intros Hr Ht Htruthy Hp e.
  rewrite generateStudyNotes_run. unfold notes_failure. rewrite Hr.
  rewrite Ht in Htruthy |- *.
  destruct t as [| c t]; [discriminate Htruthy |].
  rewrite Hp. repeat split.
Qed.

Lemma non_json_reply_fails_logging_error_witness :
  let w := replying None (Some (lit "hello")) in
  Json.parse (lit "hello") = None /\
  outcome (generateStudyNotes sample_prefs w)
  = Thrown (new_Error (lit "Unexpected token h in JSON at position 0")) /\
  notes_failure w sample_prefs = Some ParseError /\
  events (generateStudyNotes sample_prefs w)
  = [ConsoleWarn [LogString API_KEY_warning];
     Request (mkGoogleGenAI []) (notes_request (userPrompt sample_prefs));
     JsonParse (lit "hello");
     ConsoleError
       [LogString (lit "Gemini API Error:");
        LogError (new_SyntaxError
                    (lit "Unexpected token h in JSON at position 0"))]].
Proof.
  split; [reflexivity |].
  apply (non_json_reply_fails_logging_error sample_prefs
           (replying None (Some (lit "hello")))
           (mkResponse (Some (lit "hello"))) (lit "hello"));
    reflexivity.
Defined.

(** C3, as stated, fails: on an engine whose [SyntaxError] names the
    offending character and its position, the reply [hello] makes the call
    fail, and [hello] occurs nowhere in what the console received. *)
Lemma non_json_reply_text_not_logged_counterexample :
  let w := replying None (Some (lit "hello")) in
  Json.parse (lit "hello") = None /\
  outcome (generateStudyNotes sample_prefs w)
  = Thrown (new_Error (lit "Unexpected token h in JSON at position 0")) /\
  console_output (events (generateStudyNotes sample_prefs w))
  = [lit "API Key is missing. Ensure process.env.API_KEY is configured.";
     lit "Gemini API Error:";
     lit "SyntaxError";
     lit "Unexpected token h in JSON at position 0"] /\
  logged (events (generateStudyNotes sample_prefs w)) (lit "hello") = false.
Proof. vm_compute. repeat split. Qed.

(** C4: when the request is rejected, the [Error] thrown to the caller
    carries the message of the rejection when it has a non-empty one, and the
    fallback message when the message is absent or empty. *)
Theorem rejected_request_message
    (prefs : Types.UserPreferences) (w : Platform) (e : JsError) :
  notes_reply w prefs = Rejected e ->
  notes_failure w prefs = Some ServiceError /\
  (forall m, message e = Some m -> truthy (Some m) = true ->
             outcome (generateStudyNotes prefs w) = Thrown (new_Error m)) /\
  (truthy (message e) = false ->
   outcome (generateStudyNotes prefs w)
   = Thrown (new_Error (lit "Could not generate academic notes."))).
Proof.
  intros Hr.
  rewrite generateStudyNotes_run. unfold notes_failure. rewrite Hr.
  cbn [outcome]. split; [reflexivity | split].
  - intros m Hm Ht. rewrite Hm.
    destruct m; [discriminate Ht | reflexivity].
  - intros Ht. destruct (message e) as [[| c m] |];
      try discriminate Ht; reflexivity.
Qed.

Lemma rejected_request_message_witness :
  let quota := mkError (lit "ApiError") (Some (lit "Quota exceeded")) in
  let bare := mkError (lit "Error") None in
  outcome (generateStudyNotes sample_prefs (failing None quota))
  = Thrown (new_Error (lit "Quota exceeded")) /\
  outcome (generateStudyNotes sample_prefs (failing None bare))
  = Thrown (new_Error (lit "Could not generate academic notes.")).
Proof.
  split.
  - apply (rejected_request_message sample_prefs
             (failing None (mkError (lit "ApiError")
                              (Some (lit "Quota exceeded"))))
             (mkError (lit "ApiError") (Some (lit "Quota exceeded")))
             eq_refl); reflexivity.
  - apply (rejected_request_message sample_prefs
             (failing None (mkError (lit "Error") None))
             (mkError (lit "Error") None) eq_refl); reflexivity.
Defined.

(** C5: every call of [generateStudyNotes] issues one request, which carries
    the response schema; the schema requires exactly the eight fields
    introduction, detailedExplanation, examples, examPoints,
    shortAnswerQuestions, longAnswerQuestions, pyqs and vivaQuestions at the
    top level (definition, classification, diagramDescription and
    clinicalCorrelation are declared and not required); an item of examPoints
    declares point and mnemonic and requires point alone; an item of
    classification requires both type and explanation. *)
Theorem notes_schema_required :
  (forall prefs w,
      exists ai p,
        requests (events (generateStudyNotes prefs w)) = [Request ai p] /\
        responseSchema (config p) = Some responseSchema_notes) /\
  required responseSchema_notes
  = [lit "introduction"; lit "detailedExplanation"; lit "examples";
     lit "examPoints"; lit "shortAnswerQuestions"; lit "longAnswerQuestions";
     lit "pyqs"; lit "vivaQuestions"] /\
  NoDup (required responseSchema_notes) /\
  filter (fun k => negb (existsb (JsString_eqb k)
                           (required responseSchema_notes)))
         (map fst (properties responseSchema_notes))
  = [lit "definition"; lit "classification"; lit "diagramDescription";
     lit "clinicalCorrelation"] /\
  (exists item,
      item_of responseSchema_notes (lit "examPoints") = Some item /\
      map fst (properties item) = [lit "point"; lit "mnemonic"] /\
      required item = [lit "point"]) /\
  (exists item,
      item_of responseSchema_notes (lit "classification") = Some item /\
      map fst (properties item) = [lit "type"; lit "explanation"] /\
      required item = [lit "type"; lit "explanation"]).
Proof.
  split; [| split; [| split; [| split; [| split]]]].
  - intros prefs w. do 2 eexists. split; [apply requests_notes | reflexivity].
  - reflexivity.
  - assert (H : forall l : list JsString,
               (fix nodup (l : list JsString) : bool :=
                  match l with
                  | [] => true
                  | k :: l' => negb (existsb (JsString_eqb k) l') && nodup l'
                  end) l = true -> NoDup l).
    { induction l as [| k l IH]; intros Hl; [constructor |].
      apply andb_prop in Hl. destruct Hl as [Hk Hl].
      constructor; [| apply IH; exact Hl].
      intros Hin. apply negb_true_iff in Hk.
      assert (existsb (JsString_eqb k) l = true) as Hex.
      { apply existsb_exists. exists k. split; [exact Hin |].
        unfold JsString_eqb. destruct (list_eq_dec N.eq_dec k k); congruence. }
      congruence. }
    apply H. vm_compute. reflexivity.
  - vm_compute. reflexivity.
  - exists examPoints_item. vm_compute. repeat split.
  - exists classification_item. vm_compute. repeat split.
Qed.

(** ** The image request *)

(** C6: when the reply to [analyzePharmacyImage] has no text, the call
    returns the fixed string and does not throw. *)
Theorem empty_image_reply_fallback
    (base64Image mimeType : JsString) (w : Platform)
    (r : GenerateContentResponse) :
  image_reply w base64Image mimeType = Resolved r ->
  truthy (text r) = false ->
  outcome (analyzePharmacyImage base64Image mimeType w)
  = Returned (lit "Analysis unavailable for this image.").
Proof.
  intros Hr Ht. rewrite analyzePharmacyImage_run, Hr. cbn [outcome].
  destruct (text r) as [[| c t] |]; try discriminate Ht; reflexivity.
Qed.

Lemma empty_image_reply_fallback_witness :
  outcome (analyzePharmacyImage (lit "iVBORw0KGgo=") (lit "image/png")
             (replying None (Some [])))
  = Returned (lit "Analysis unavailable for this image.") /\
  outcome (analyzePharmacyImage (lit "iVBORw0KGgo=") (lit "image/png")
             (replying None None))
  = Returned (lit "Analysis unavailable for this image.").
Proof.
  split.
  - apply (empty_image_reply_fallback (lit "iVBORw0KGgo=") (lit "image/png")
             (replying None (Some [])) (mkResponse (Some [])));
      reflexivity.
  - apply (empty_image_reply_fallback (lit "iVBORw0KGgo=") (lit "image/png")
             (replying None None) (mkResponse None));
      reflexivity.
Defined.

(** C7: whatever errors reject the request of [analyzePharmacyImage], the
    call throws the same [Error] with the fixed message, so nothing of the
    rejection reaches the caller; the rejection itself is logged under the
    label of the image analysis. *)
Theorem image_failure_fixed_message
    (base64Image mimeType : JsString) (w1 w2 : Platform) (e1 e2 : JsError) :
  image_reply w1 base64Image mimeType = Rejected e1 ->
  image_reply w2 base64Image mimeType = Rejected e2 ->
  outcome (analyzePharmacyImage base64Image mimeType w1)
  = Thrown (new_Error (lit "Failed to process image lab analysis.")) /\
  outcome (analyzePharmacyImage base64Image mimeType w2)
  = outcome (analyzePharmacyImage base64Image mimeType w1) /\
  In (ConsoleError [LogString (lit "Image Analysis Error:"); LogError e1])
     (events (analyzePharmacyImage base64Image mimeType w1)) /\
  In (ConsoleError [LogString (lit "Image Analysis Error:"); LogError e2])
     (events (analyzePharmacyImage base64Image mimeType w2)).
Proof.
  intros H1 H2. rewrite !analyzePharmacyImage_run, H1, H2. cbn [outcome events].
  repeat split; apply in_or_app; right; right; left; reflexivity.
Qed.

Lemma image_failure_fixed_message_witness :
  let e1 := mkError (lit "ApiError") (Some (lit "Quota exceeded")) in
  let e2 := mkError (lit "TypeError") (Some (lit "fetch failed")) in
  let img := lit "iVBORw0KGgo=" in
  let mime := lit "image/png" in
  e1 <> e2 /\
  outcome (analyzePharmacyImage img mime (failing None e1))
  = Thrown (new_Error (lit "Failed to process image lab analysis.")) /\
  outcome (analyzePharmacyImage img mime (failing (Some (lit "k")) e2))
  = outcome (analyzePharmacyImage img mime (failing None e1)) /\
  In (ConsoleError [LogString (lit "Image Analysis Error:"); LogError e1])
     (events (analyzePharmacyImage img mime (failing None e1))) /\
  In (ConsoleError [LogString (lit "Image Analysis Error:"); LogError e2])
     (events (analyzePharmacyImage img mime (failing (Some (lit "k")) e2))).
Proof.
  split; [discriminate |].
  apply (image_failure_fixed_message (lit "iVBORw0KGgo=") (lit "image/png")
           (failing None (mkError (lit "ApiError")
                            (Some (lit "Quota exceeded"))))
           (failing (Some (lit "k"))
              (mkError (lit "TypeError") (Some (lit "fetch failed"))))
           (mkError (lit "ApiError") (Some (lit "Quota exceeded")))
           (mkError (lit "TypeError") (Some (lit "fetch failed"))));
    reflexivity.
Defined.

(** ** The credential *)

(** C8: with the variable unset, [getApiKey] returns the empty string, emits
    the warning once and does not throw; and on every platform each call of
    the three operations does its own lookup: its client holds the key
    resolved at that call and its warnings are those of that lookup, so a
    series of calls without a key warns once per call. *)
Theorem missing_credential (w : Platform) :
  (API_KEY w = None ->
   getApiKey w
   = mkRun (Returned [])
       [ConsoleWarn
          [LogString
             (lit "API Key is missing. Ensure process.env.API_KEY is configured.")]]
   /\
   forall calls,
     warnings (flat_map (call_events w) calls)
     = repeat (ConsoleWarn [LogString API_KEY_warning]) (List.length calls)) /\
  (forall c,
      call_keys w c = [or_else (API_KEY w) []] /\
      warnings (call_events w c) = events (getApiKey w)).
Proof.
  split.
  - intros Habsent. split.
    + rewrite getApiKey_run. unfold resolved_key.
      rewrite (key_events_absent w Habsent), Habsent. reflexivity.
    + induction calls as [| c calls IH]; [reflexivity |].
      cbn [flat_map List.length repeat]. unfold warnings in *.
      rewrite filter_app, IH.
      fold (warnings (call_events w c)).
      rewrite call_warnings, (key_events_absent w Habsent). reflexivity.
  - intros c. split.
    + apply call_keys_resolved.
    + rewrite getApiKey_run. apply call_warnings.
Qed.

Lemma missing_credential_witness :
  let w := replying None (Some (lit "{}")) in
  API_KEY w = None /\
  outcome (getApiKey w) = Returned [] /\
  List.length (events (getApiKey w)) = 1%nat /\
  List.length
    (warnings (flat_map (call_events w)
                 [CallChat; CallNotes sample_prefs; CallChat])) = 3%nat.
Proof.
  pose proof (missing_credential (replying None (Some (lit "{}")))) as [H _].
  specialize (H eq_refl). destruct H as [Hrun Hcalls].
  cbv zeta. split; [reflexivity |].
  rewrite Hrun, (Hcalls [CallChat; CallNotes sample_prefs; CallChat]).
  repeat split.
Defined.

(** ** The chat session *)

Lemma createPharmacyChatSession_on_run {Client Chat : Type}
    (sdk : Sdk Client Chat) (w : Platform) :
  createPharmacyChatSession_on sdk w =
  match outcome (sdk_new sdk (resolved_key w) w) with
  | Thrown e =>
      mkRun (Thrown e) (key_events w ++ events (sdk_new sdk (resolved_key w) w))
  | Returned ai =>
      mkRun (outcome (sdk_chats_create sdk ai MODEL chat_config w))
            (key_events w
             ++ events (sdk_new sdk (resolved_key w) w)
             ++ events (sdk_chats_create sdk ai MODEL chat_config w))
  end.
Proof.
  unfold createPharmacyChatSession_on.
  erewrite bind_run by apply getApiKey_run.
  unfold bind.
  destruct (outcome (sdk_new sdk (resolved_key w) w)); reflexivity.
Qed.

(** With the SDK that builds its objects and does nothing else, this is the
    function as defined above. *)
Lemma createPharmacyChatSession_local (w : Platform) :
  createPharmacyChatSession_on local_sdk w = createPharmacyChatSession w.
Proof.
  rewrite createPharmacyChatSession_on_run, createPharmacyChatSession_run.
  cbn. rewrite app_nil_r. reflexivity.
Qed.




(** ** No local validation *)

(** C10: whenever the reply text is non-empty and is JSON, the value it
    denotes is returned as it is, without error, whatever its shape. *)
Theorem valid_json_returned_unchecked
    (prefs : Types.UserPreferences) (w : Platform)
    (r : GenerateContentResponse) (t : JsString) (v : JsValue) :
  notes_reply w prefs = Resolved r ->
  text r = Some t ->
  truthy (text r) = true ->
  Json.parse t = Some v ->
  outcome (generateStudyNotes prefs w) = Returned v /\
  notes_failure w prefs = None.
Proof.
  intros Hr Ht Htruthy Hp.
  rewrite generateStudyNotes_run. unfold notes_failure. rewrite Hr.
  rewrite Ht in Htruthy |- *.
  destruct t as [| c t]; [discriminate Htruthy |].
  rewrite Hp. split; reflexivity.
Qed.

Lemma valid_json_returned_unchecked_witness :
  let absent v :=
    forallb (fun k => negb (has_property v k)) Types.StudyNotes_required in
  (outcome (generateStudyNotes sample_prefs (replying None (Some (lit "null"))))
   = Returned JNull /\ absent JNull = true) /\
  (outcome (generateStudyNotes sample_prefs (replying None (Some (lit "42"))))
   = Returned (JNumber false 42 0) /\ absent (JNumber false 42 0) = true) /\
  (outcome (generateStudyNotes sample_prefs (replying None (Some (lit "{}"))))
   = Returned (JObject []) /\ absent (JObject []) = true) /\
  (outcome (generateStudyNotes sample_prefs
              (replying None (Some (quoted "{'title':'Tablets'}"))))
   = Returned (JObject [(lit "title", JString (lit "Tablets"))]) /\
   absent (JObject [(lit "title", JString (lit "Tablets"))]) = true).
Proof.
  cbv zeta.
  split; [split; [| reflexivity] | split; [split; [| reflexivity] |
  split; [split; [| reflexivity] | split; [| reflexivity]]]].
  - apply (valid_json_returned_unchecked sample_prefs
             (replying None (Some (lit "null")))
             (mkResponse (Some (lit "null"))) (lit "null") JNull);
      reflexivity.
  - apply (valid_json_returned_unchecked sample_prefs
             (replying None (Some (lit "42")))
             (mkResponse (Some (lit "42"))) (lit "42") (JNumber false 42 0));
      reflexivity.
  - apply (valid_json_returned_unchecked sample_prefs
             (replying None (Some (lit "{}")))
             (mkResponse (Some (lit "{}"))) (lit "{}") (JObject []));
      reflexivity.
  - apply (valid_json_returned_unchecked sample_prefs
             (replying None (Some (quoted "{'title':'Tablets'}")))
             (mkResponse (Some (quoted "{'title':'Tablets'}")))
             (quoted "{'title':'Tablets'}")
             (JObject [(lit "title", JString (lit "Tablets"))]));
      reflexivity.
Defined.

(** ** The parser on sample texts *)

Example parse_null : Json.parse (lit "null") = Some JNull.
Proof. reflexivity. Qed.

Example parse_empty_object : Json.parse (lit "{}") = Some (JObject []).
Proof. reflexivity. Qed.

Example parse_number : Json.parse (lit "-12.50e+3") = Some (JNumber true 1250 1).
Proof. reflexivity. Qed.

Example parse_nested :
  Json.parse (quoted "{ 'k' : [1, true, {'x':null}], 's':'aA\n\u0041\u20ac' }")
  = Some (JObject
            [(lit "k", JArray [JNumber false 1 0; JBool true;
                               JObject [(lit "x", JNull)]]);
             (lit "s", JString [97; 65; 10; 65; 8364]%N)]).
Proof. reflexivity. Qed.

Example parse_rejects :
  map Json.parse
      [[]; lit "hello"; lit "{"; lit "[1,]"; lit "01"; lit "1."; lit "nul";
       quoted "{'a':1,}"; lit "[1 2]"; lit "'a'"; lit "1 2"; lit "{}{}"; lit "-";
       lit "1e"; quoted "['a"]
  = repeat None 15.
Proof. reflexivity. Qed.

(** * Further properties of the module *)

(** ** Substrings of the prompts *)

Lemma starts_with_app (p s : JsString) : starts_with p (p ++ s) = true.
Proof.
  induction p as [| c p IH]; [reflexivity |].
  cbn. rewrite N.eqb_refl. exact IH.
Qed.

Lemma starts_with_weaken (p s b : JsString) :
  starts_with p s = true -> starts_with p (s ++ b) = true.
Proof.
  revert s. induction p as [| c p IH]; intros s H; [reflexivity |].
  destruct s as [| d s]; [discriminate H |].
  cbn in *. apply andb_prop in H. destruct H as [Hc Hp].
  rewrite Hc. cbn. apply IH. exact Hp.
Qed.

Lemma includes_app_l (s b sub : JsString) :
  includes s sub = true -> includes (s ++ b) sub = true.
Proof.
  induction s as [| c s IH]; intros H.
  - cbn in H. rewrite orb_false_r in H.
    destruct sub; [| discriminate H]. destruct b; reflexivity.
  - cbn [includes] in H. apply orb_prop in H.
    change ((c :: s) ++ b) with (c :: (s ++ b)). cbn [includes].
    destruct H as [H | H].
    + assert (Hw : starts_with sub (c :: s ++ b) = true)
        by exact (starts_with_weaken sub (c :: s) b H).
      rewrite Hw. reflexivity.
    + rewrite (IH H). apply orb_true_r.
Qed.

Lemma includes_app_r (a s sub : JsString) :
  includes s sub = true -> includes (a ++ s) sub = true.
Proof.
  intros H. induction a as [| c a IH]; [exact H |].
  change ((c :: a) ++ s) with (c :: (a ++ s)). cbn [includes].
  rewrite IH. apply orb_true_r.
Qed.

Lemma includes_self (s : JsString) : includes s s = true.
Proof.
  destruct s as [| c s]; [reflexivity |].
  cbn [includes]. rewrite <- (app_nil_r (c :: s)) at 2.
  rewrite starts_with_app. reflexivity.
Qed.

Lemma includes_suffix (a s : JsString) : includes (a ++ s) s = true.
Proof. apply includes_app_r, includes_self. Qed.

(** A substring of a line of a template literal is a substring of the
    literal. *)
Lemma includes_template (lines : list JsString) (line sub : JsString) :
  In line lines ->
  includes line sub = true ->
  includes (template lines) sub = true.
Proof.
  intros Hin Hsub. induction lines as [| l ls IH]; [destruct Hin |].
  destruct ls as [| l' ls].
  - destruct Hin as [-> | []]. exact Hsub.
  - change (template (l :: l' :: ls)) with (l ++ 10%N :: template (l' :: ls)).
    destruct Hin as [-> | Hin].
    + apply includes_app_l. exact Hsub.
    + apply includes_app_r.
      change (10%N :: template (l' :: ls))
        with ([10%N] ++ template (l' :: ls)).
      apply includes_app_r. apply IH. exact Hin.
Qed.

(** ** The credential, when the variable is set *)

(** X1: a key that is set but empty is treated like a missing one, with the
    warning and the empty string; a non-empty key is returned unchanged and
    nothing is printed. *)
Theorem getApiKey_set (w : Platform) (k : JsString) :
  API_KEY w = Some k ->
  (truthy (Some k) = true ->
   getApiKey w = mkRun (Returned k) []) /\
  (truthy (Some k) = false ->
   getApiKey w
   = mkRun (Returned [])
       [ConsoleWarn
          [LogString
             (lit "API Key is missing. Ensure process.env.API_KEY is configured.")]]).
Proof.
  intros Hk. rewrite getApiKey_run. unfold resolved_key, key_events.
  rewrite Hk. split; intros Ht; destruct k; try discriminate Ht; reflexivity.
Qed.

Lemma getApiKey_set_witness :
  getApiKey (replying (Some (lit "AIza-123")) None)
  = mkRun (Returned (lit "AIza-123")) [] /\
  getApiKey (replying (Some []) None)
  = mkRun (Returned [])
      [ConsoleWarn
         [LogString
            (lit "API Key is missing. Ensure process.env.API_KEY is configured.")]].
Proof.
  split.
  - apply (getApiKey_set (replying (Some (lit "AIza-123")) None)
             (lit "AIza-123") eq_refl); reflexivity.
  - apply (getApiKey_set (replying (Some []) None) [] eq_refl); reflexivity.
Defined.

(** ** Logging and rethrowing in the notes request *)

Lemma errors_key_events (w : Platform) : errors (key_events w) = [].
Proof. unfold key_events. destruct (truthy (API_KEY w)); reflexivity. Qed.

Lemma errors_after_key (w : Platform) (es : list Event) :
  errors (key_events w ++ es) = errors es.
Proof.
  unfold errors. rewrite filter_app. fold (errors (key_events w)).
  rewrite errors_key_events. reflexivity.
Qed.

Lemma errors_notes_returned
    (prefs : Types.UserPreferences) (w : Platform) (v : JsValue) :
  outcome (generateStudyNotes prefs w) = Returned v ->
  errors (events (generateStudyNotes prefs w)) = [].
Proof.
  rewrite generateStudyNotes_run.
  destruct (notes_reply w prefs) as [r | cause]; [| discriminate].
  destruct (text r) as [[| c t] |]; try discriminate.
  destruct (Json.parse (c :: t)); [| discriminate].
  intros _. cbn [events]. apply errors_after_key.
Qed.

Lemma errors_notes_thrown
    (prefs : Types.UserPreferences) (w : Platform) (e : JsError) :
  outcome (generateStudyNotes prefs w) = Thrown e ->
  exists cause,
    errors (events (generateStudyNotes prefs w))
    = [logged_error (lit "Gemini API Error:") cause] /\
    e = new_Error (or_else (message cause) notes_fallback_message).
Proof.
  rewrite generateStudyNotes_run.
  destruct (notes_reply w prefs) as [r | cause].
  - destruct (text r) as [[| c t] |].
    + intros He. injection He as <-.
      exists (new_Error empty_response_message). cbn [events].
      rewrite errors_after_key. split; reflexivity.
    + destruct (Json.parse (c :: t)) as [v |]; [discriminate |].
      intros He. cbv zeta in He. injection He as <-.
      exists (new_SyntaxError (syntax_error_message w (c :: t))).
      cbn [events]. rewrite errors_after_key. split; reflexivity.
    + intros He. injection He as <-.
      exists (new_Error empty_response_message). cbn [events].
      rewrite errors_after_key. split; reflexivity.
  - intros He. injection He as <-.
    exists cause. cbn [events]. rewrite errors_after_key. split; reflexivity.
Qed.



(** X3: whatever makes [generateStudyNotes] fail, what reaches the caller is
    a plain [Error] with a non-empty message: the class of the error caught
    ([SyntaxError], an error of the SDK) is not passed on. *)
Theorem notes_thrown_plain_error
    (prefs : Types.UserPreferences) (w : Platform) (e : JsError) :
  outcome (generateStudyNotes prefs w) = Thrown e ->
  name e = lit "Error" /\ truthy (message e) = true.
Proof.
  intros He.
  destruct (errors_notes_thrown prefs w e He) as (cause & _ & ->).
  split; [reflexivity |].
  cbn [message new_Error]. destruct (message cause) as [[| c m] |]; reflexivity.
Qed.

Lemma notes_thrown_plain_error_witness :
  let e := new_Error (lit "Could not generate academic notes.") in
  outcome (generateStudyNotes sample_prefs
             (failing None (mkError (lit "TypeError") (Some []))))
  = Thrown e /\
  name e = lit "Error" /\ truthy (message e) = true.
Proof.
  split; [reflexivity |].
  apply (notes_thrown_plain_error sample_prefs
           (failing None (mkError (lit "TypeError") (Some [])))
           (new_Error (lit "Could not generate academic notes.")));
    reflexivity.
Defined.

(** ** The console calls of the notes request *)

Lemma own_calls_after_key (w : Platform) (es : list Event) :
  own_console_calls (key_events w ++ es)
  = key_events w ++ own_console_calls es.
Proof.
  unfold own_console_calls. rewrite filter_app. f_equal.
  unfold key_events. destruct (truthy (API_KEY w)); reflexivity.
Qed.

Lemma key_events_nil (w : Platform) :
  key_events w = [] <-> truthy (API_KEY w) = true.
Proof.
  unfold key_events. destruct (truthy (API_KEY w)); split; intros H;
    try reflexivity; discriminate H.
Qed.

(** X4: of its own console calls, the [console.warn] of the credential
    lookup and the [console.error] of the catch block, [generateStudyNotes]
    makes none exactly when a non-empty key is configured and the call
    returns a value.  What the SDK prints by itself is outside the
    statement. *)
Theorem notes_own_console_calls_iff
    (prefs : Types.UserPreferences) (w : Platform) :
  own_console_calls (events (generateStudyNotes prefs w)) = [] <->
  truthy (API_KEY w) = true /\
  exists v, outcome (generateStudyNotes prefs w) = Returned v.
Proof.
  rewrite generateStudyNotes_run.
  assert (Hloud : forall es, key_events w ++ es = [] -> es = []).
  { intros es H. apply app_eq_nil in H. exact (proj2 H). }
  destruct (notes_reply w prefs) as [r | cause].
  - destruct (text r) as [[| c t] |].
    + cbn [outcome events]. rewrite own_calls_after_key. split.
      * intros H. apply Hloud in H. discriminate H.
      * intros [_ [v Hv]]. discriminate Hv.
    + destruct (Json.parse (c :: t)) as [v |]; cbn [outcome events];
        rewrite own_calls_after_key.
      * cbn. rewrite app_nil_r, key_events_nil.
        split; [intros H; split; [exact H | exists v; reflexivity]
               | intros [H _]; exact H].
      * split.
        -- intros H. apply Hloud in H. discriminate H.
        -- intros [_ [v Hv]]. discriminate Hv.
    + cbn [outcome events]. rewrite own_calls_after_key. split.
      * intros H. apply Hloud in H. discriminate H.
      * intros [_ [v Hv]]. discriminate Hv.
  - cbn [outcome events]. rewrite own_calls_after_key. split.
    + intros H. apply Hloud in H. discriminate H.
    + intros [_ [v Hv]]. discriminate Hv.
Qed.

Lemma notes_own_console_calls_iff_witness :
  let w := replying (Some (lit "AIza-123")) (Some (lit "[]")) in
  let w' := replying None (Some (lit "[]")) in
  outcome (generateStudyNotes sample_prefs w) = Returned (JArray []) /\
  own_console_calls (events (generateStudyNotes sample_prefs w)) = [] /\
  own_console_calls (events (generateStudyNotes sample_prefs w')) <> [].
Proof.
  cbv zeta. split; [reflexivity |]. split.
  - apply (proj2 (notes_own_console_calls_iff sample_prefs
                    (replying (Some (lit "AIza-123")) (Some (lit "[]"))))).
    split; [reflexivity | exists (JArray []); reflexivity].
  - intros H.
    apply (proj1 (notes_own_console_calls_iff sample_prefs
                    (replying None (Some (lit "[]"))))) in H.
    destruct H as [H _]. discriminate H.
Defined.

(** ** The prompt of the notes request *)

Ltac find_line :=
  repeat first [left; reflexivity | right].

(** X5: the one request of [generateStudyNotes] carries a single text part,
    and that text names every preference after its heading: subject,
    semester, topic, level of detail, the three flags as [true] or [false],
    and the university, for which an absent or empty value is replaced by
    [Any PCI-affiliated University]. *)
Theorem notes_prompt_embeds_preferences
    (prefs : Types.UserPreferences) (w : Platform) :
  exists ai p prompt,
    requests (events (generateStudyNotes prefs w)) = [Request ai p] /\
    request_parts p = [TextPart prompt] /\
    includes prompt (lit "Subject: " ++ Types.subject prefs) = true /\
    includes prompt (lit "Semester: " ++ Types.semester prefs) = true /\
    includes prompt (lit "Topic: " ++ Types.topic prefs) = true /\
    includes prompt (lit "Level of Detail: " ++ Types.length prefs) = true /\
    includes prompt
      (lit "Target University: "
       ++ or_else (Types.university prefs)
            (lit "Any PCI-affiliated University")) = true /\
    (truthy (Types.university prefs) = false ->
     includes prompt (lit "Target University: Any PCI-affiliated University")
     = true) /\
    includes prompt
      (lit "Include Diagram Description: "
       ++ show_bool (Types.includeDiagrams prefs)) = true /\
    includes prompt
      (lit "Include Mnemonics: "
       ++ show_bool (Types.includeMnemonics prefs)) = true /\
    includes prompt
      (lit "Include Clinical/Practical Correlation: "
       ++ show_bool (Types.includeClinicalCorrelation prefs)) = true.
Proof.
  exists (mkGoogleGenAI (resolved_key w)), (notes_request (userPrompt prefs)),
    (userPrompt prefs).
  split; [apply requests_notes |]. split; [reflexivity |].
  assert (Huniv :
            includes (userPrompt prefs)
              (lit "Target University: "
               ++ or_else (Types.university prefs)
                    (lit "Any PCI-affiliated University")) = true).
  { unfold userPrompt.
    apply includes_template
      with (line := lit "    Target University: "
                    ++ or_else (Types.university prefs)
                         (lit "Any PCI-affiliated University"));
      [find_line |].
    apply (includes_suffix (lit "    ")). }
  repeat split.
  - unfold userPrompt.
    apply includes_template
      with (line := lit "    Subject: " ++ Types.subject prefs); [find_line |].
    apply (includes_suffix (lit "    ")).
  - unfold userPrompt.
    apply includes_template
      with (line := lit "    Semester: " ++ Types.semester prefs);
      [find_line |].
    apply (includes_suffix (lit "    ")).
  - unfold userPrompt.
    apply includes_template
      with (line := lit "    Topic: " ++ Types.topic prefs); [find_line |].
    apply (includes_suffix (lit "    ")).
  - unfold userPrompt.
    apply includes_template
      with (line := lit "    Level of Detail: " ++ Types.length prefs);
      [find_line |].
    apply (includes_suffix (lit "    ")).
  - exact Huniv.
  - intros Hu. destruct (Types.university prefs) as [[| c u] |];
      try discriminate Hu; exact Huniv.
  - unfold userPrompt.
    apply includes_template
      with (line := lit "    - Include Diagram Description: "
                    ++ show_bool (Types.includeDiagrams prefs));
      [find_line |].
    apply (includes_suffix (lit "    - ")).
  - unfold userPrompt.
    apply includes_template
      with (line := lit "    - Include Mnemonics: "
                    ++ show_bool (Types.includeMnemonics prefs));
      [find_line |].
    apply (includes_suffix (lit "    - ")).
  - unfold userPrompt.
    apply includes_template
      with (line := lit "    - Include Clinical/Practical Correlation: "
                    ++ show_bool (Types.includeClinicalCorrelation prefs));
      [find_line |].
    apply (includes_suffix (lit "    - ")).
Qed.

Lemma notes_prompt_embeds_preferences_witness :
  truthy (Types.university sample_prefs) = false /\
  includes (userPrompt sample_prefs)
    (lit "Target University: Any PCI-affiliated University") = true /\
  includes (userPrompt sample_prefs) (lit "Topic: Dosage forms") = true.
Proof.
  split; [reflexivity |].
  destruct (notes_prompt_embeds_preferences sample_prefs
              (replying None None))
    as (ai & p & prompt & Hreq & Hparts & _ & _ & Htopic & _ & _ & Hu & _).
  rewrite requests_notes in Hreq. injection Hreq as _ <-.
  injection Hparts as <-.
  split; [apply Hu; reflexivity | exact Htopic].
Defined.

(** ** The image request, further *)

Lemma parses_after_key (w : Platform) (es : list Event) :
  filter is_parse (key_events w ++ es) = filter is_parse es.
Proof. rewrite filter_app, parses_key_events. reflexivity. Qed.

(** X6: a non-empty reply to [analyzePharmacyImage] is returned as it is:
    the text is not parsed, even when it is JSON, and nothing is written to
    [console.error]. *)
Theorem image_reply_returned_verbatim
    (base64Image mimeType : JsString) (w : Platform)
    (r : GenerateContentResponse) (t : JsString) :
  image_reply w base64Image mimeType = Resolved r ->
  text r = Some t ->
  truthy (text r) = true ->
  outcome (analyzePharmacyImage base64Image mimeType w) = Returned t /\
  filter is_parse (events (analyzePharmacyImage base64Image mimeType w)) = []
  /\
  errors (events (analyzePharmacyImage base64Image mimeType w)) = [].
Proof.
  intros Hr Ht Htruthy. rewrite analyzePharmacyImage_run, Hr.
  cbn [outcome events]. rewrite Ht in Htruthy |- *.
  destruct t as [| c t]; [discriminate Htruthy |].
  rewrite parses_after_key, errors_after_key. repeat split.
Qed.

Lemma image_reply_returned_verbatim_witness :
  let w := replying None (Some (quoted "{'a':1}")) in
  Json.parse (quoted "{'a':1}")
  = Some (JObject [(lit "a", JNumber false 1 0)]) /\
  outcome (analyzePharmacyImage (lit "iVBORw0KGgo=") (lit "image/png") w)
  = Returned (quoted "{'a':1}") /\
  filter is_parse
    (events (analyzePharmacyImage (lit "iVBORw0KGgo=") (lit "image/png") w))
  = [] /\
  errors
    (events (analyzePharmacyImage (lit "iVBORw0KGgo=") (lit "image/png") w))
  = [].
Proof.
  split; [reflexivity |].
  apply (image_reply_returned_verbatim (lit "iVBORw0KGgo=") (lit "image/png")
           (replying None (Some (quoted "{'a':1}")))
           (mkResponse (Some (quoted "{'a':1}"))) (quoted "{'a':1}"));
    reflexivity.
Defined.

(** X7: [analyzePharmacyImage] returns exactly when the service resolves the
    request, and the string it returns is never empty; it throws exactly when
    the service rejects the request, after one [console.error] entry holding
    the rejection. *)
Theorem image_outcome_by_reply
    (base64Image mimeType : JsString) (w : Platform) :
  (forall s,
      outcome (analyzePharmacyImage base64Image mimeType w) = Returned s ->
      truthy (Some s) = true /\
      exists r, image_reply w base64Image mimeType = Resolved r) /\
  (forall e,
      outcome (analyzePharmacyImage base64Image mimeType w) = Thrown e ->
      exists cause,
        image_reply w base64Image mimeType = Rejected cause /\
        errors (events (analyzePharmacyImage base64Image mimeType w))
        = [ConsoleError [LogString (lit "Image Analysis Error:");
                         LogError cause]]).
Proof.
  rewrite analyzePharmacyImage_run.
  destruct (image_reply w base64Image mimeType) as [r | cause];
    cbn [outcome events]; split; try discriminate.
  - intros s Hs. injection Hs as <-. split; [| exists r; reflexivity].
    destruct (text r) as [[| c t] |]; reflexivity.
  - intros e _. exists cause. rewrite errors_after_key.
    split; reflexivity.
Qed.

Lemma image_outcome_by_reply_witness :
  let img := lit "iVBORw0KGgo=" in
  let mime := lit "image/png" in
  let cause := mkError (lit "TypeError") (Some (lit "fetch failed")) in
  truthy (Some (lit "Analysis unavailable for this image.")) = true /\
  (exists c,
      image_reply (failing None cause) img mime = Rejected c /\
      errors (events (analyzePharmacyImage img mime (failing None cause)))
      = [ConsoleError [LogString (lit "Image Analysis Error:"); LogError c]]).
Proof.
  split.
  - apply (proj1 (image_outcome_by_reply (lit "iVBORw0KGgo=")
                    (lit "image/png") (replying None None))
             (lit "Analysis unavailable for this image.")); reflexivity.
  - apply (proj2 (image_outcome_by_reply (lit "iVBORw0KGgo=")
                    (lit "image/png")
                    (failing None
                       (mkError (lit "TypeError") (Some (lit "fetch failed")))))
             (new_Error (lit "Failed to process image lab analysis.")));
      reflexivity.
Defined.

(** X8: on every path [analyzePharmacyImage] issues exactly one request and
    never calls [JSON.parse]; the request is made with the resolved key and
    carries the image bytes and the MIME type it was given, unchanged, before
    the fixed prompt, and asks for no JSON output and no schema. *)
Theorem image_request_shape
    (base64Image mimeType : JsString) (w : Platform) :
  exists ai p,
    requests (events (analyzePharmacyImage base64Image mimeType w))
    = [Request ai p] /\
    apiKey ai = or_else (API_KEY w) [] /\
    model p = lit "gemini-3-pro-preview" /\
    request_parts p = [InlineData base64Image mimeType; TextPart image_prompt]
    /\
    responseMimeType (config p) = None /\
    responseSchema (config p) = None /\
    filter is_parse (events (analyzePharmacyImage base64Image mimeType w))
    = [].
Proof.
  exists (mkGoogleGenAI (resolved_key w)), (image_request base64Image mimeType).
  split; [apply requests_image |].
  repeat split.
  rewrite analyzePharmacyImage_run.
  destruct (image_reply w base64Image mimeType); cbn [events];
    rewrite parses_after_key; reflexivity.
Qed.

(** ** What the schema gives when the service honours it *)

Lemma conforms_string (v : JsValue) :
  conforms string_schema v = true -> exists s, v = JString s.
Proof. destruct v; try discriminate. intros _. eexists. reflexivity. Qed.

Lemma conforms_array (i : Schema) (v : JsValue) :
  conforms (array_schema i) v = true ->
  exists xs, v = JArray xs /\ forallb (conforms i) xs = true.
Proof.
  destruct v; try discriminate. cbn. intros H. eexists. split; [reflexivity |].
  exact H.
Qed.

Lemma conforms_object_field (s : Schema) (v : JsValue) (k : JsString)
    (p : Schema) :
  type s = OBJECT ->
  conforms s v = true ->
  In k (required s) ->
  In (k, p) (properties s) ->
  exists x, get_property v k = Some x /\ conforms p x = true.
Proof.
  destruct s as [t props it req]. cbn [type required properties].
  intros -> Hc Hreq Hprop.
  destruct v as [| | | | | ms]; try discriminate Hc.
  cbn [conforms] in Hc. apply andb_prop in Hc. destruct Hc as [Hr Hp].
  rewrite forallb_forall in Hr, Hp.
  specialize (Hr k Hreq). specialize (Hp (k, p) Hprop).
  unfold has_property in Hr. cbn [get_property fst snd] in *.
  destruct (get_member k ms) as [x |]; [| discriminate Hr].
  exists x. split; [reflexivity | exact Hp].
Qed.

Lemma parse_nil : Json.parse [] = None.
Proof. reflexivity. Qed.

(** X9: when the reply text denotes a value that satisfies the schema
    declared in the request, [generateStudyNotes] returns that value and it
    is a complete set of notes: all eight required fields are present, the
    introduction is a string, the six list fields are arrays of strings, and
    every exam point has a string [point]. *)
Theorem schema_conformant_reply_complete
    (prefs : Types.UserPreferences) (w : Platform)
    (r : GenerateContentResponse) (t : JsString) (v : JsValue) :
  notes_reply w prefs = Resolved r ->
  text r = Some t ->
  Json.parse t = Some v ->
  conforms responseSchema_notes v = true ->
  outcome (generateStudyNotes prefs w) = Returned v /\
  Types.required_fields_present v = true /\
  (exists s, get_property v (lit "introduction") = Some (JString s)) /\
  (forall k,
      In k [lit "detailedExplanation"; lit "examples";
            lit "shortAnswerQuestions"; lit "longAnswerQuestions";
            lit "pyqs"; lit "vivaQuestions"] ->
      exists xs,
        get_property v k = Some (JArray xs) /\
        forallb is_string xs = true) /\
  (exists ps,
      get_property v (lit "examPoints") = Some (JArray ps) /\
      Forall (fun p => exists s,
                  get_property p (lit "point") = Some (JString s)) ps).
Proof.
  intros Hr Ht Hp Hc.
  split; [| split; [| split; [| split]]].
  - rewrite generateStudyNotes_run, Hr, Ht.
    destruct t as [| c t]; [rewrite parse_nil in Hp; discriminate Hp |].
    rewrite Hp. reflexivity.
  - destruct v as [| | | | | ms]; try discriminate Hc.
    cbn [conforms responseSchema_notes] in Hc.
    apply andb_prop in Hc. exact (proj1 Hc).
  - destruct (conforms_object_field responseSchema_notes v
                (lit "introduction") string_schema eq_refl Hc)
      as (x & Hx & Hs); [find_line | find_line |].
    apply conforms_string in Hs. destruct Hs as [s ->].
    exists s. exact Hx.
  - intros k Hk.
    assert (Hfield : In k (required responseSchema_notes) /\
                     In (k, array_schema string_schema)
                        (properties responseSchema_notes)).
    { repeat (destruct Hk as [<- | Hk]; [split; find_line |]).
      destruct Hk. }
    destruct (conforms_object_field responseSchema_notes v k
                (array_schema string_schema) eq_refl Hc
                (proj1 Hfield) (proj2 Hfield)) as (x & Hx & Ha).
    apply conforms_array in Ha. destruct Ha as (xs & -> & Hxs).
    exists xs. split; [exact Hx |].
    rewrite forallb_forall in Hxs |- *. intros y Hy.
    destruct (conforms_string y (Hxs y Hy)) as [s ->]. reflexivity.
  - destruct (conforms_object_field responseSchema_notes v
                (lit "examPoints") (array_schema examPoints_item) eq_refl Hc)
      as (x & Hx & Ha); [find_line | find_line |].
    apply conforms_array in Ha. destruct Ha as (ps & -> & Hps).
    exists ps. split; [exact Hx |].
    rewrite forallb_forall in Hps. apply Forall_forall. intros p Hin.
    destruct (conforms_object_field examPoints_item p (lit "point")
                string_schema eq_refl (Hps p Hin))
      as (y & Hy & Hs); [find_line | find_line |].
    apply conforms_string in Hs. destruct Hs as [s ->].
    exists s. exact Hy.
Qed.

Lemma schema_conformant_reply_complete_witness :
  let w := replying (Some (lit "AIza-123")) (Some sample_notes_text) in
  exists v,
    Json.parse sample_notes_text = Some v /\
    conforms responseSchema_notes v = true /\
    outcome (generateStudyNotes sample_prefs w) = Returned v /\
    Types.required_fields_present v = true /\
    get_property v (lit "introduction")
    = Some (JString (lit "Tablets are solid dosage forms.")).
Proof.
  cbv zeta.
  destruct (Json.parse sample_notes_text) as [v |] eqn:Hp;
    [| vm_compute in Hp; discriminate Hp].
  assert (Hc : conforms responseSchema_notes v = true).
  { vm_compute in Hp. injection Hp as <-. vm_compute. reflexivity. }
  exists v. split; [reflexivity |]. split; [exact Hc |].
  destruct (schema_conformant_reply_complete sample_prefs
              (replying (Some (lit "AIza-123")) (Some sample_notes_text))
              (mkResponse (Some sample_notes_text)) sample_notes_text v
              eq_refl eq_refl Hp Hc) as (Ho & Hreq & _).
  split; [exact Ho |]. split; [exact Hreq |].
  vm_compute in Hp. injection Hp as <-. vm_compute. reflexivity.
Defined.

(** ** Printed values are read back *)

Lemma prepend_nil o : prepend [] o = o.
Proof. destruct o; reflexivity. Qed.

Lemma prepend_prepend a b o : prepend a (prepend b o) = prepend (a ++ b) o.
Proof. destruct o; cbn; [rewrite app_assoc |]; reflexivity. Qed.

Lemma lex_cons m c s :
  Json.lex m (c :: s) =
  match Json.step m c with
  | None => None
  | Some (m', ts) => prepend ts (Json.lex m' s)
  end.
Proof. reflexivity. Qed.

Lemma lex_step m c m' s :
  Json.step m c = Some (m', []) -> Json.lex m (c :: s) = Json.lex m' s.
Proof. intros H. rewrite lex_cons, H. apply prepend_nil. Qed.

Lemma delimited_cases (rest : JsString) :
  delimited rest = true ->
  rest = [] \/
  exists c r ts,
    rest = c :: r /\
    Json.scan1 c = Some (Json.Scan, ts) /\
    Json.is_lower c = false /\ Json.is_num_char c = false.
Proof.
  destruct rest as [| c r]; [left; reflexivity |]. cbn [delimited].
  intros H. right. exists c, r.
  assert (Hc : (c = 44 \/ c = 93 \/ c = 125 \/ c = 9 \/ c = 10 \/ c = 13
                \/ c = 32)%N).
  { unfold Json.is_ws in H.
    repeat (apply orb_prop in H; destruct H as [H | H]);
      apply N.eqb_eq in H; lia. }
  destruct Hc as [-> | [-> | [-> | [-> | [-> | [-> | ->]]]]]];
    eexists; repeat split.
Qed.

(** A word ends where the rest is delimited. *)
Lemma lex_word_end acc t rest :
  Json.word_of (rev acc) = Some t ->
  delimited rest = true ->
  Json.lex (Json.InWord acc) rest = prepend [t] (Json.lex Json.Scan rest).
Proof.
  intros Hw Hd.
  destruct (delimited_cases rest Hd)
    as [-> | (c & r & ts & -> & Hscan & Hlow & _)].
  - cbn. rewrite Hw. reflexivity.
  - rewrite !lex_cons. cbn [Json.step]. rewrite Hlow, Hw.
    cbn [Json.after_token]. rewrite Hscan.
    rewrite prepend_prepend. reflexivity.
Qed.

Lemma lex_literal (v : JsValue) (rest : JsString) :
  match v with JNull | JBool _ => True | _ => False end ->
  delimited rest = true ->
  Json.lex Json.Scan (print v ++ rest)
  = prepend (tokens v) (Json.lex Json.Scan rest).
Proof.
  intros Hv Hd.
  destruct v as [| [|] | | | |]; try destruct Hv; cbn [print tokens].
  - change (lit "null" ++ rest) with (110 :: 117 :: 108 :: 108 :: rest)%N.
    repeat (rewrite lex_cons; cbn - [Json.lex prepend]).
    rewrite !prepend_nil. apply lex_word_end; [reflexivity | exact Hd].
  - change (lit "true" ++ rest) with (116 :: 114 :: 117 :: 101 :: rest)%N.
    repeat (rewrite lex_cons; cbn - [Json.lex prepend]).
    rewrite !prepend_nil. apply lex_word_end; [reflexivity | exact Hd].
  - change (lit "false" ++ rest) with (102 :: 97 :: 108 :: 115 :: 101 :: rest)%N.
    repeat (rewrite lex_cons; cbn - [Json.lex prepend]).
    rewrite !prepend_nil. apply lex_word_end; [reflexivity | exact Hd].
Qed.

(** *** Strings *)

Lemma hex_value_digit (d : N) :
  (d < 16)%N -> Json.hex_value (hex_digit d) = Some d.
Proof.
  intros H.
  assert (Hd : (d = 0 \/ d = 1 \/ d = 2 \/ d = 3 \/ d = 4 \/ d = 5 \/ d = 6
                \/ d = 7 \/ d = 8 \/ d = 9 \/ d = 10 \/ d = 11 \/ d = 12
                \/ d = 13 \/ d = 14 \/ d = 15)%N) by lia.
  repeat (destruct Hd as [-> | Hd]; [reflexivity |]). subst d. reflexivity.
Qed.

Lemma lex_escaped (c : N) (acc s : list N) :
  Json.lex (Json.InStr acc) (escape_unit c ++ s)
  = Json.lex (Json.InStr (c :: acc)) s.
Proof.
  unfold escape_unit.
  destruct (N.eqb_spec c 34) as [-> | H34].
  { cbn [app]. repeat (rewrite lex_cons; cbn - [Json.lex prepend]).
    rewrite !prepend_nil. reflexivity. }
  destruct (N.eqb_spec c 92) as [-> | H92].
  { cbn [app]. repeat (rewrite lex_cons; cbn - [Json.lex prepend]).
    rewrite !prepend_nil. reflexivity. }
  destruct (N.ltb_spec c 32) as [Hlt | Hge].
  - cbn [app].
    rewrite (lex_step (Json.InStr acc) 92 (Json.InEsc acc)) by reflexivity.
    rewrite (lex_step (Json.InEsc acc) 117 (Json.InHex acc 3 0))
      by reflexivity.
    rewrite (lex_step (Json.InHex acc 3 0) 48 (Json.InHex acc 2 0))
      by reflexivity.
    rewrite (lex_step (Json.InHex acc 2 0) 48 (Json.InHex acc 1 0))
      by reflexivity.
    rewrite (lex_step (Json.InHex acc 1 0) (hex_digit (c / 16))
               (Json.InHex acc 0 (c / 16))).
    2:{ cbn [Json.step]. rewrite hex_value_digit; [reflexivity |].
        apply N.Div0.div_lt_upper_bound. lia. }
    rewrite (lex_step (Json.InHex acc 0 (c / 16)) (hex_digit (c mod 16))
               (Json.InStr (c :: acc))); [reflexivity |].
    cbn [Json.step]. rewrite hex_value_digit by (apply N.mod_lt; lia).
    rewrite (N.div_mod c 16) at 3 by lia. reflexivity.
  - cbn [app]. rewrite lex_cons. cbn [Json.step].
    apply N.eqb_neq in H34, H92. rewrite H34, H92.
    apply N.ltb_ge in Hge. rewrite Hge. rewrite prepend_nil. reflexivity.
Qed.

Lemma lex_string_body (s acc rest : list N) :
  Json.lex (Json.InStr acc) (flat_map escape_unit s ++ 34%N :: rest)
  = prepend [Json.TString (rev acc ++ s)] (Json.lex Json.Scan rest).
Proof.
  revert acc. induction s as [| c s IH]; intros acc.
  - cbn [flat_map app]. rewrite lex_cons. cbn [Json.step N.eqb Pos.eqb].
    rewrite app_nil_r. reflexivity.
  - cbn [flat_map]. rewrite <- app_assoc, lex_escaped, IH.
    cbn [rev]. rewrite <- app_assoc. reflexivity.
Qed.

Lemma lex_string (s rest : list N) :
  Json.lex Json.Scan (print_string s ++ rest)
  = prepend [Json.TString s] (Json.lex Json.Scan rest).
Proof.
  unfold print_string. cbn [app]. rewrite lex_cons.
  change (Json.step Json.Scan 34%N) with (Some (Json.InStr [], @nil Json.Token)).
  cbn iota. rewrite prepend_nil, <- app_assoc. cbn [app].
  apply (lex_string_body s [] rest).
Qed.
Lemma digit_cases (c : N) :
  Json.is_digit c = true ->
  (c = 48 \/ c = 49 \/ c = 50 \/ c = 51 \/ c = 52 \/ c = 53 \/ c = 54
   \/ c = 55 \/ c = 56 \/ c = 57)%N.
Proof.
  unfold Json.is_digit. intros H. apply andb_prop in H. destruct H as [H1 H2].
  apply N.leb_le in H1, H2. lia.
Qed.

Lemma units_all_digits (d : Decimal.uint) :
  forallb Json.is_digit (uint_units d) = true.
Proof. induction d; cbn [uint_units forallb]; try rewrite IHd; reflexivity. Qed.

Lemma span_digits_all (ds rest : list N) :
  forallb Json.is_digit ds = true ->
  not_digit_headed rest = true ->
  Json.span_digits (ds ++ rest) = (ds, rest).
Proof.
  intros Hds Hrest. induction ds as [| c ds IH].
  - destruct rest as [| c r]; [reflexivity |].
    cbn in *. apply negb_true_iff in Hrest. rewrite Hrest. reflexivity.
  - cbn [forallb] in Hds. apply andb_prop in Hds. destruct Hds as [Hc Hds].
    cbn [app Json.span_digits]. rewrite Hc, (IH Hds). reflexivity.
Qed.

Lemma digits_value_acc (d : Decimal.uint) (acc : positive) :
  fold_left (fun a c => 10 * a + (c - 48))%N (uint_units d) (Npos acc)
  = Npos (Pos.of_uint_acc d acc).
Proof.
  revert acc. induction d; intros acc; cbn [uint_units fold_left Pos.of_uint_acc];
    [reflexivity | ..];
    match goal with
    | |- fold_left _ _ ?x = Npos (Pos.of_uint_acc _ ?y) =>
        replace x with (Npos y) by lia
    end; apply IHd.
Qed.

Lemma digits_value_units (d : Decimal.uint) :
  Json.digits_value (uint_units d) = N.of_uint d.
Proof.
  unfold Json.digits_value, N.of_uint.
  induction d; cbn [uint_units fold_left Pos.of_uint]; [reflexivity | ..];
    try exact IHd;
    match goal with
    | |- fold_left _ _ ?x = Npos (Pos.of_uint_acc _ ?y) =>
        replace x with (Npos y) by reflexivity
    end; apply digits_value_acc.
Qed.

Lemma digits_value_print_N (n : N) : Json.digits_value (print_N n) = n.
Proof.
  unfold print_N. rewrite digits_value_units. apply DecimalN.Unsigned.of_to.
Qed.

Lemma to_uint_normal (n : N) : Decimal.unorm (N.to_uint n) = N.to_uint n.
Proof.
  rewrite <- (DecimalN.Unsigned.of_to n) at 2.
  symmetry. apply DecimalN.Unsigned.to_of.
Qed.

Lemma normal_D0 (u d : Decimal.uint) :
  Decimal.unorm u = Decimal.D0 d -> d = Decimal.Nil.
Proof.
  unfold Decimal.unorm. destruct (Decimal.nzhead u) eqn:E; intros H;
    try discriminate H.
  - injection H as <-. reflexivity.
  - destruct (DecimalFacts.nzhead_nonzero u _ E).
Qed.

Lemma int_part_ok_print_N (n : N) : Json.int_part_ok (print_N n) = true.
Proof.
  unfold print_N. pose proof (to_uint_normal n) as Hn.
  destruct (N.to_uint n) as [| d | d | d | d | d | d | d | d | d | d];
    cbn [uint_units]; try (destruct (uint_units d); reflexivity).
  - destruct (DecimalFacts.unorm_nonnil _ Hn).
  - rewrite (normal_D0 _ _ Hn). reflexivity.
Qed.

Lemma print_N_head (n : N) :
  exists c ds, print_N n = c :: ds /\ Json.is_digit c = true.
Proof.
  unfold print_N. pose proof (to_uint_normal n) as Hn.
  destruct (N.to_uint n); cbn [uint_units];
    try (eexists; eexists; split; reflexivity).
  destruct (DecimalFacts.unorm_nonnil _ Hn).
Qed.

Lemma print_N_digits (n : N) : forallb Json.is_digit (print_N n) = true.
Proof. apply units_all_digits. Qed.

(** The sign tests of [number_of] on a text that starts with a digit. *)
Lemma sign_of_digit (c : N) (s : list N) :
  Json.is_digit c = true ->
  match c :: s with
  | 45%N :: r => (true, r)
  | _ => (false, c :: s)
  end = (false, c :: s).
Proof.
  intros H. destruct (digit_cases c H) as [-> | [-> | [-> | [-> | [-> | [-> |
    [-> | [-> | [-> | ->]]]]]]]]]; reflexivity.
Qed.

Lemma exp_sign_of_digit (c : N) (s : list N) :
  Json.is_digit c = true ->
  match c :: s with
  | 45%N :: r' => (true, r')
  | 43%N :: r' => (false, r')
  | _ => (false, c :: s)
  end = (false, c :: s).
Proof.
  intros H. destruct (digit_cases c H) as [-> | [-> | [-> | [-> | [-> | [-> |
    [-> | [-> | [-> | ->]]]]]]]]]; reflexivity.
Qed.

Lemma number_of_printed (m : N) (e : Z) (neg : bool) :
  Json.number_of ((if neg then [45%N] else []) ++ print_N m
                  ++ 101%N :: print_Z e)
  = Some (Json.TNumber neg m e).
Proof.
  unfold Json.number_of.
  destruct (print_N_head m) as (c & ds & Hm & Hc).
  assert (Hsign :
            match (if neg then [45%N] else []) ++ print_N m
                  ++ 101%N :: print_Z e with
            | 45%N :: r => (true, r)
            | _ => (false, (if neg then [45%N] else []) ++ print_N m
                           ++ 101%N :: print_Z e)
            end = (neg, print_N m ++ 101%N :: print_Z e)).
  { destruct neg; [reflexivity |]. cbn [app]. rewrite Hm. cbn [app].
    apply (sign_of_digit c _ Hc). }
  rewrite Hsign.
  rewrite (span_digits_all (print_N m) (101%N :: print_Z e)
             (print_N_digits m) eq_refl).
  rewrite int_part_ok_print_N. cbn [negb].
  cbn iota beta. rewrite app_nil_r, digits_value_print_N.
  change (N.eqb 101 101 || N.eqb 101 69) with true. cbn iota.
  match goal with
  | |- (let (eneg, r1) := ?X in _) = _ =>
      assert (Hexp : X = (Z.ltb e 0, print_N (Z.abs_N e)))
  end.
  { destruct e as [| p | p]; unfold print_Z; [reflexivity | | reflexivity].
    change (Z.to_N (Z.pos p)) with (Z.abs_N (Z.pos p)).
    destruct (print_N_head (Z.abs_N (Z.pos p))) as (c' & ds' & Hp & Hc').
    rewrite Hp.
    destruct (digit_cases c' Hc') as [-> | [-> | [-> | [-> | [-> | [-> |
      [-> | [-> | [-> | ->]]]]]]]]]; reflexivity. }
  rewrite Hexp.
  rewrite <- (app_nil_r (print_N (Z.abs_N e))).
  rewrite (span_digits_all _ [] (print_N_digits _) eq_refl).
  destruct (print_N_head (Z.abs_N e)) as (c' & ds' & Hp & _).
  rewrite Hp at 1. rewrite digits_value_print_N.
  cbn [Datatypes.length Z.of_nat]. do 2 f_equal.
  destruct (Z.ltb_spec e 0); lia.
Qed.

Lemma lex_number_end (acc rest : list N) (t : Json.Token) :
  Json.number_of (rev acc) = Some t ->
  delimited rest = true ->
  Json.lex (Json.InNum acc) rest = prepend [t] (Json.lex Json.Scan rest).
Proof.
  intros Hn Hd.
  destruct (delimited_cases rest Hd)
    as [-> | (c & r & ts & -> & Hscan & _ & Hnum)].
  - cbn. rewrite Hn. reflexivity.
  - rewrite !lex_cons. cbn [Json.step]. rewrite Hnum, Hn.
    cbn [Json.after_token]. rewrite Hscan.
    rewrite prepend_prepend. reflexivity.
Qed.

Lemma lex_number_run (s acc rest : list N) (t : Json.Token) :
  forallb Json.is_num_char s = true ->
  Json.number_of (rev acc ++ s) = Some t ->
  delimited rest = true ->
  Json.lex (Json.InNum acc) (s ++ rest)
  = prepend [t] (Json.lex Json.Scan rest).
Proof.
  revert acc. induction s as [| c s IH]; intros acc Hs Hn Hd.
  - rewrite app_nil_r in Hn. apply lex_number_end; assumption.
  - cbn [forallb] in Hs. apply andb_prop in Hs. destruct Hs as [Hc Hs].
    cbn [app]. rewrite (lex_step (Json.InNum acc) c (Json.InNum (c :: acc))).
    + apply IH; [exact Hs | | exact Hd].
      cbn [rev]. rewrite <- app_assoc. exact Hn.
    + cbn [Json.step]. rewrite Hc. reflexivity.
Qed.

Lemma digit_is_num_char (c : N) :
  Json.is_digit c = true -> Json.is_num_char c = true.
Proof. intros H. unfold Json.is_num_char. rewrite H. reflexivity. Qed.

Lemma digits_are_num_chars (ds : list N) :
  forallb Json.is_digit ds = true -> forallb Json.is_num_char ds = true.
Proof.
  induction ds as [| c ds IH]; [reflexivity |]. cbn [forallb]. intros H.
  apply andb_prop in H. destruct H as [Hc Hds].
  rewrite (digit_is_num_char c Hc), (IH Hds). reflexivity.
Qed.

Lemma print_Z_num_chars (e : Z) : forallb Json.is_num_char (print_Z e) = true.
Proof.
  destruct e; unfold print_Z; cbn [forallb];
    apply digits_are_num_chars, print_N_digits.
Qed.

Lemma scan1_digit (c : N) :
  Json.is_digit c = true -> Json.scan1 c = Some (Json.InNum [c], []).
Proof.
  intros H. destruct (digit_cases c H) as [-> | [-> | [-> | [-> | [-> | [-> |
    [-> | [-> | [-> | ->]]]]]]]]]; reflexivity.
Qed.

Lemma lex_number (neg : bool) (m : N) (e : Z) (rest : JsString) :
  delimited rest = true ->
  Json.lex Json.Scan (print (JNumber neg m e) ++ rest)
  = prepend [Json.TNumber neg m e] (Json.lex Json.Scan rest).
Proof.
  intros Hd. pose proof (number_of_printed m e neg) as Hn.
  cbn [print].
  assert (Hchars : forallb Json.is_num_char (print_N m ++ 101%N :: print_Z e)
                   = true).
  { rewrite forallb_app, (digits_are_num_chars _ (print_N_digits m)).
    cbn [forallb]. rewrite print_Z_num_chars. reflexivity. }
  destruct neg; cbn [app] in *.
  - rewrite (lex_step Json.Scan 45 (Json.InNum [45%N])) by reflexivity.
    apply lex_number_run; assumption.
  - destruct (print_N_head m) as (c & ds & Hm & Hc).
    rewrite Hm in *. cbn [app] in *.
    rewrite (lex_step Json.Scan c (Json.InNum [c]))
      by (apply scan1_digit; exact Hc).
    cbn [forallb] in Hchars. apply andb_prop in Hchars.
    apply lex_number_run; [exact (proj2 Hchars) | exact Hn | exact Hd].
Qed.

(** *** Induction on values, through arrays and objects *)

Lemma JsValue_nested_ind (P : JsValue -> Prop) :
  P JNull ->
  (forall b, P (JBool b)) ->
  (forall neg m e, P (JNumber neg m e)) ->
  (forall s, P (JString s)) ->
  (forall xs, Forall P xs -> P (JArray xs)) ->
  (forall ms, Forall (fun kv => P (snd kv)) ms -> P (JObject ms)) ->
  forall v, P v.
Proof.
  intros Hnull Hbool Hnum Hstr Harr Hobj.
  fix IH 1. intros [| b | neg m e | s | xs | ms].
  - exact Hnull.
  - apply Hbool.
  - apply Hnum.
  - apply Hstr.
  - apply Harr. induction xs as [| x xs IHxs]; constructor.
    + apply IH.
    + exact IHxs.
  - apply Hobj. induction ms as [| [k x] ms IHms]; constructor.
    + apply IH.
    + exact IHms.
Qed.

(** *** The lexer on a printed value *)

Lemma lex_punct (c : N) (t : Json.Token) (s : JsString) :
  Json.scan1 c = Some (Json.Scan, [t]) ->
  Json.lex Json.Scan (c :: s) = prepend [t] (Json.lex Json.Scan s).
Proof. intros H. rewrite lex_cons. cbn [Json.step]. rewrite H. reflexivity. Qed.

Lemma lex_sep_concat {A : Type} (f : A -> JsString)
    (g : A -> list Json.Token) (xs : list A) :
  Forall (fun x => forall rest,
              delimited rest = true ->
              Json.lex Json.Scan (f x ++ rest)
              = prepend (g x) (Json.lex Json.Scan rest)) xs ->
  forall rest,
    delimited rest = true ->
    Json.lex Json.Scan (sep_concat f 44%N xs ++ rest)
    = prepend (sep_concat g Json.TComma xs) (Json.lex Json.Scan rest).
Proof.
  induction 1 as [| x xs Hx Hxs IH]; intros rest Hd.
  - cbn. symmetry. apply prepend_nil.
  - cbn [sep_concat]. destruct xs as [| y ys].
    + rewrite !app_nil_r. apply Hx. exact Hd.
    + rewrite <- app_assoc. rewrite Hx by reflexivity.
      cbn [app]. rewrite (lex_punct 44 Json.TComma) by reflexivity.
      rewrite (IH rest Hd), !prepend_prepend, <- app_assoc. reflexivity.
Qed.

Lemma lex_print (v : JsValue) :
  forall rest,
    delimited rest = true ->
    Json.lex Json.Scan (print v ++ rest)
    = prepend (tokens v) (Json.lex Json.Scan rest).
Proof.
  induction v as [| b | neg m e | s | xs IH | ms IH] using JsValue_nested_ind;
    intros rest Hd.
  - apply lex_literal; [exact I | exact Hd].
  - apply lex_literal; [exact I | exact Hd].
  - apply lex_number. exact Hd.
  - apply lex_string.
  - cbn [print tokens app]. rewrite <- app_assoc. cbn [app].
    rewrite (lex_punct 91 Json.TLBracket) by reflexivity.
    rewrite (lex_sep_concat print tokens xs IH) by reflexivity.
    rewrite (lex_punct 93 Json.TRBracket) by reflexivity.
    rewrite !prepend_prepend. reflexivity.
  - cbn [print tokens app]. rewrite <- app_assoc. cbn [app].
    rewrite (lex_punct 123 Json.TLBrace) by reflexivity.
    rewrite (lex_sep_concat
               (fun kv => print_string (fst kv) ++ 58%N :: print (snd kv))
               (fun kv => Json.TString (fst kv) :: Json.TColon
                          :: tokens (snd kv)) ms).
    + rewrite (lex_punct 125 Json.TRBrace) by reflexivity.
      rewrite !prepend_prepend. reflexivity.
    + apply Forall_forall. intros kv Hin r Hr.
      rewrite Forall_forall in IH.
      rewrite <- app_assoc, lex_string. cbn [app].
      rewrite (lex_punct 58 Json.TColon) by reflexivity.
      rewrite (IH kv Hin r Hr), !prepend_prepend. reflexivity.
    + reflexivity.
Qed.

(** *** The parser on the tokens of a value *)

Lemma run_cons (st : Json.State) (t : Json.Token) (ts : list Json.Token) :
  Json.run st (t :: ts) =
  match Json.advance st t with
  | None => None
  | Some st' => Json.run st' ts
  end.
Proof. reflexivity. Qed.

(** The first token of a value opens it: it is no closing bracket. *)
Lemma tokens_head (v : JsValue) :
  exists t ts, tokens v = t :: ts /\ t <> Json.TRBracket.
Proof.
  destruct v as [| [|] | neg m e | s | xs | ms]; cbn [tokens];
    eexists; eexists; (split; [reflexivity | discriminate]).
Qed.

Lemma run_array_start (v : JsValue) (stack : list Json.Frame)
    (ts : list Json.Token) :
  Json.run (Json.SArrStart stack) (tokens v ++ ts)
  = Json.run (Json.SValue (Json.InArr [] :: stack)) (tokens v ++ ts).
Proof.
  destruct (tokens_head v) as (t & ts' & -> & Ht). cbn [app].
  rewrite !run_cons. destruct t; try reflexivity. destruct (Ht eq_refl).
Qed.

Lemma run_elements (xs : list JsValue) :
  Forall parses xs ->
  xs <> [] ->
  forall done stack ts,
    Json.run (Json.SValue (Json.InArr done :: stack))
      (sep_concat tokens Json.TComma xs ++ Json.TRBracket :: ts)
    = Json.run (Json.SDone stack (JArray (rev done ++ xs))) ts.
Proof.
  induction 1 as [| x xs Hx Hxs IH]; intros Hne done stack ts;
    [destruct (Hne eq_refl) |].
  cbn [sep_concat]. rewrite <- app_assoc, Hx.
  destruct xs as [| y ys].
  - cbn [app]. rewrite run_cons. reflexivity.
  - cbn [app]. rewrite run_cons. cbn [Json.advance].
    rewrite IH by discriminate. cbn [rev]. rewrite <- app_assoc. reflexivity.
Qed.

Lemma run_members (ms : list (JsString * JsValue)) :
  Forall (fun kv => parses (snd kv)) ms ->
  ms <> [] ->
  forall done stack ts,
    Json.run (Json.SObjKey stack done)
      (sep_concat (fun kv => Json.TString (fst kv) :: Json.TColon
                             :: tokens (snd kv)) Json.TComma ms
       ++ Json.TRBrace :: ts)
    = Json.run (Json.SDone stack (JObject (rev done ++ ms))) ts.
Proof.
  induction 1 as [| [k x] ms Hx Hms IH]; intros Hne done stack ts;
    [destruct (Hne eq_refl) |].
  cbn [sep_concat fst snd]. cbn [app].
  rewrite run_cons. cbn [Json.advance]. rewrite run_cons. cbn [Json.advance].
  cbn [snd] in Hx. rewrite <- app_assoc, Hx.
  destruct ms as [| y ys].
  - cbn [app]. rewrite run_cons. reflexivity.
  - cbn [app]. rewrite run_cons. cbn [Json.advance].
    rewrite IH by discriminate. cbn [rev]. rewrite <- app_assoc. reflexivity.
Qed.

Lemma run_tokens (v : JsValue) : parses v.
Proof.
  induction v as [| b | neg m e | s | xs IH | ms IH] using JsValue_nested_ind;
    intros stack ts.
  - reflexivity.
  - destruct b; reflexivity.
  - reflexivity.
  - reflexivity.
  - cbn [tokens app]. rewrite run_cons. cbn [Json.advance Json.begin_value].
    rewrite <- app_assoc. cbn [app].
    destruct xs as [| x xs]; [reflexivity |].
    cbn [sep_concat]. rewrite <- app_assoc, run_array_start, app_assoc.
    change (tokens x ++ match xs with
                        | [] => []
                        | _ :: _ => Json.TComma
                                    :: sep_concat tokens Json.TComma xs
                        end)
      with (sep_concat tokens Json.TComma (x :: xs)).
    apply (run_elements (x :: xs) IH); discriminate.
  - cbn [tokens app]. rewrite run_cons. cbn [Json.advance Json.begin_value].
    rewrite <- app_assoc. cbn [app].
    destruct ms as [| [k x] ms]; [reflexivity |].
    rewrite <- (run_members ((k, x) :: ms) IH) with (done := [])
      by discriminate.
    cbn [sep_concat fst snd app]. rewrite !run_cons. reflexivity.
Qed.

(** White space between tokens is skipped. *)
Lemma lex_ws (s rest : JsString) :
  forallb Json.is_ws s = true ->
  Json.lex Json.Scan (s ++ rest) = Json.lex Json.Scan rest.
Proof.
  induction s as [| c s IH]; [reflexivity |]. cbn [forallb]. intros H.
  apply andb_prop in H. destruct H as [Hc Hs]. cbn [app].
  rewrite (lex_step Json.Scan c Json.Scan).
  - apply IH. exact Hs.
  - cbn [Json.step]. unfold Json.scan1. rewrite Hc. reflexivity.
Qed.

Lemma ws_delimited (s : JsString) :
  forallb Json.is_ws s = true -> delimited s = true.
Proof.
  destruct s as [| c s]; [reflexivity |]. cbn [forallb delimited]. intros H.
  apply andb_prop in H. rewrite (proj1 H). apply orb_true_r.
Qed.

(** The parser reads back every printed value, white space around it or
    not. *)
Lemma parse_print (v : JsValue) (pre post : JsString) :
  forallb Json.is_ws pre = true ->
  forallb Json.is_ws post = true ->
  Json.parse (pre ++ print v ++ post) = Some v.
Proof.
  intros Hpre Hpost. unfold Json.parse.
  rewrite (lex_ws pre _ Hpre), (lex_print v post (ws_delimited post Hpost)).
  rewrite <- (app_nil_r post), (lex_ws post [] Hpost).
  cbn [Json.lex Json.finish prepend].
  rewrite (run_tokens v [] []). reflexivity.
Qed.

(** A text of white space alone is not JSON. *)
Lemma parse_ws (t : JsString) :
  forallb Json.is_ws t = true -> Json.parse t = None.
Proof.
  intros Ht. unfold Json.parse.
  rewrite <- (app_nil_r t), (lex_ws t [] Ht). reflexivity.
Qed.

(** X10: round trip.  Take a value without numbers whose objects have
    distinct keys, none of them written in digits alone, so that its members
    are the properties of the object the engine builds.  When the reply text
    is the printed form of such a value, with or without white space around
    it, [generateStudyNotes] returns exactly that value: every member of
    every object in its order, every element of every array and every code
    unit of every string is preserved, and nothing is logged as an error. *)
Theorem notes_reply_read_back
    (prefs : Types.UserPreferences) (w : Platform)
    (r : GenerateContentResponse) (v : JsValue) (pre post : JsString) :
  plain v = true ->
  forallb Json.is_ws pre = true ->
  forallb Json.is_ws post = true ->
  notes_reply w prefs = Resolved r ->
  text r = Some (pre ++ print v ++ post) ->
  outcome (generateStudyNotes prefs w) = Returned v /\
  errors (events (generateStudyNotes prefs w)) = [].
Proof.
  intros _ Hpre Hpost Hr Ht.
  assert (Ho : outcome (generateStudyNotes prefs w) = Returned v).
  { rewrite generateStudyNotes_run, Hr, Ht.
    pose proof (parse_print v pre post Hpre Hpost) as Hp.
    destruct (pre ++ print v ++ post) as [| c t];
      [rewrite parse_nil in Hp; discriminate Hp |].
    rewrite Hp. reflexivity. }
  split; [exact Ho |]. exact (errors_notes_returned prefs w v Ho).
Qed.

Lemma notes_reply_read_back_witness :
  let reply := [10; 32]%N ++ print round_trip_sample ++ [10]%N in
  let w := replying None (Some reply) in
  plain round_trip_sample = true /\
  outcome (generateStudyNotes sample_prefs w) = Returned round_trip_sample /\
  errors (events (generateStudyNotes sample_prefs w)) = [].
Proof.
  cbv zeta. split; [reflexivity |].
  apply (notes_reply_read_back sample_prefs
           (replying None
              (Some ([10; 32]%N ++ print round_trip_sample ++ [10]%N)))
           (mkResponse
              (Some ([10; 32]%N ++ print round_trip_sample ++ [10]%N)))
           round_trip_sample [10; 32]%N [10]%N
           eq_refl eq_refl eq_refl eq_refl eq_refl).
Defined.

(** X11: a reply of white space alone is not taken for an empty reply: it
    is handed to [JSON.parse], which rejects it, so the call fails as a parse
    error with the parser's message and not with the empty-response
    message. *)
Theorem blank_reply_is_parse_error
    (prefs : Types.UserPreferences) (w : Platform)
    (r : GenerateContentResponse) (t : JsString) :
  notes_reply w prefs = Resolved r ->
  text r = Some t ->
  truthy (text r) = true ->
  forallb Json.is_ws t = true ->
  notes_failure w prefs = Some ParseError /\
  In (JsonParse t) (events (generateStudyNotes prefs w)) /\
  outcome (generateStudyNotes prefs w)
  = Thrown (new_Error (or_else (Some (syntax_error_message w t))
                         (lit "Could not generate academic notes."))).
Proof.
  intros Hr Ht Htruthy Hws.
  pose proof (parse_ws t Hws) as Hp.
  rewrite generateStudyNotes_run. unfold notes_failure. rewrite Hr.
  rewrite Ht in Htruthy |- *.
  destruct t as [| c t]; [discriminate Htruthy |].
  rewrite Hp. cbn [outcome events]. split; [reflexivity |].
  split; [| reflexivity].
  apply in_or_app. right. right. left. reflexivity.
Qed.

Lemma blank_reply_is_parse_error_witness :
  let w := replying None (Some [32; 10]%N) in
  notes_failure w sample_prefs = Some ParseError /\
  In (JsonParse [32; 10]%N) (events (generateStudyNotes sample_prefs w)) /\
  outcome (generateStudyNotes sample_prefs w)
  = Thrown (new_Error (lit "Unexpected token   in JSON at position 0")).
Proof.
  apply (blank_reply_is_parse_error sample_prefs
           (replying None (Some [32; 10]%N))
           (mkResponse (Some [32; 10]%N)) [32; 10]%N);
    reflexivity.
Defined.

(** The printer on a sample value. *)
Example print_sample :
  print (JObject [(lit "a", JArray [JNumber true 15 (-1); JString [120; 10]%N;
                                    JNull])])
  = quoted "{'a':[-15e-1,'x\u000a',null]}".
Proof. reflexivity. Qed.
